(** * bulk-lighthouse: metric extraction, normalisation and history views

    A shallow embedding of the logic of the PageSpeed dashboard:
    - the analysis endpoint [POST] of the API route (extraction of the seven
      tracked metrics, [parseMetricValue], the best-effort store insert);
    - the history view of [ResultsHistory] (website and strategy filters,
      [sortResults], the numeric cells of [exportToCSV]);
    - the website grouping of [Sidenav] ([fetchWebsiteGroups]).

    Conventions of the embedding.
    - A JavaScript string is a [string]; its characters are the code units
      below 256.
    - A JavaScript Number is the real number it denotes: a finite Number is
      an exact decimal fraction [mant / 10 ^ scale].  Binary64 rounding,
      overflow to Infinity and the sign of zero are not represented.
    - [undefined] is [None] of an [option]; a thrown exception is the left
      injection of a sum. *)

From Stdlib Require Import ZArith NArith List String Ascii Bool Lia.
From Stdlib Require Import Sorted Permutation.
Import ListNotations.

Set Warnings "-register-all".

Local Open Scope string_scope.
Local Open Scope Z_scope.

(** ** Characters and digit strings *)

Module Chars.

Definition code (c : ascii) : N := N_of_ascii c.

Definition is_digit (c : ascii) : bool :=
  (48 <=? code c)%N && (code c <=? 57)%N.

Definition is_dot (c : ascii) : bool := (code c =? 46)%N.

(** The characters kept by the pattern [[^0-9.]]. *)
Definition numeric_char (c : ascii) : bool := is_digit c || is_dot c.

(** StrWhiteSpaceChar restricted to code units below 256. *)
Definition is_space (c : ascii) : bool :=
  ((9 <=? code c)%N && (code c <=? 13)%N) || (code c =? 32)%N || (code c =? 160)%N.

Definition digit_value (c : ascii) : Z := Z.of_N (code c) - 48.

Definition digit_char (d : Z) : ascii := ascii_of_N (Z.to_N (48 + d)).

(** [String.prototype.toUpperCase] on the ASCII letters. *)
Definition upper (c : ascii) : ascii :=
  if (97 <=? code c)%N && (code c <=? 122)%N then ascii_of_N (code c - 32) else c.

Definition lower (c : ascii) : ascii :=
  if (65 <=? code c)%N && (code c <=? 90)%N then ascii_of_N (code c + 32) else c.

End Chars.

Module Str.

Fixpoint filter (p : ascii -> bool) (s : string) : string :=
  match s with
  | EmptyString => EmptyString
  | String c s' => if p c then String c (filter p s') else filter p s'
  end.

Fixpoint map (f : ascii -> ascii) (s : string) : string :=
  match s with
  | EmptyString => EmptyString
  | String c s' => String (f c) (map f s')
  end.

Fixpoint forallb (p : ascii -> bool) (s : string) : bool :=
  match s with
  | EmptyString => true
  | String c s' => p c && forallb p s'
  end.

(** Longest prefix whose characters satisfy [p], and the rest. *)
Fixpoint span (p : ascii -> bool) (s : string) : string * string :=
  match s with
  | EmptyString => (EmptyString, EmptyString)
  | String c s' =>
      if p c then let (a, b) := span p s' in (String c a, b)
      else (EmptyString, s)
  end.

Fixpoint drop_while (p : ascii -> bool) (s : string) : string :=
  match s with
  | EmptyString => EmptyString
  | String c s' => if p c then drop_while p s' else s
  end.

Fixpoint repeat (c : ascii) (n : nat) : string :=
  match n with
  | O => EmptyString
  | S n' => String c (repeat c n')
  end.

(** [strip_prefix p s] is [Some r] when [s = p ++ r]. *)
Fixpoint strip_prefix (p s : string) : option string :=
  match p, s with
  | EmptyString, _ => Some s
  | String a p', String b s' => if Ascii.eqb a b then strip_prefix p' s' else None
  | String _ _, EmptyString => None
  end.

Definition is_empty (s : string) : bool :=
  match s with EmptyString => true | _ => false end.

(** The string without the zeros at its end. *)
Fixpoint strip_trailing_zeros (s : string) : string :=
  match s with
  | EmptyString => EmptyString
  | String c s' =>
      let t := strip_trailing_zeros s' in
      if is_empty t && (Chars.code c =? 48)%N then EmptyString else String c t
  end.

Definition toUpperCase (s : string) : string := map Chars.upper s.
Definition toLowerCase (s : string) : string := map Chars.lower s.

(** Value of a string of decimal digits, most significant first. *)
Fixpoint digits_value_from (acc : Z) (s : string) : Z :=
  match s with
  | EmptyString => acc
  | String c s' => digits_value_from (10 * acc + Chars.digit_value c) s'
  end.

Definition digits_value (s : string) : Z := digits_value_from 0 s.

(** Decimal digits of a non-negative integer, most significant first;
    [fuel] bounds the number of digits. *)
Fixpoint digits_from (fuel : nat) (n : Z) (acc : string) : string :=
  match fuel with
  | O => acc
  | S fuel' =>
      let acc' := String (Chars.digit_char (n mod 10)) acc in
      if n <? 10 then acc' else digits_from fuel' (n / 10) acc'
  end.

Definition digits_of (n : Z) : string :=
  digits_from (S (Z.to_nat (Z.log2 n))) n EmptyString.

End Str.

(** ** JavaScript numbers *)

Module Num.

(** The finite number [mant / 10 ^ scale]. *)
Record decimal : Type := Dec { mant : Z; scale : nat }.

Inductive number : Type :=
| NaN
| Infinity (negative : bool)
| Finite (d : decimal).

Definition zero : number := Finite (Dec 0 0).

Definition pow10 (n : nat) : Z := 10 ^ Z.of_nat n.

(** Comparison of two decimals by cross-multiplication. *)
Definition dec_compare (a b : decimal) : comparison :=
  (mant a * pow10 (scale b) ?= mant b * pow10 (scale a)).

Definition dec_ltb (a b : decimal) : bool :=
  match dec_compare a b with Lt => true | _ => false end.



Definition isNaN (x : number) : bool :=
  match x with NaN => true | _ => false end.

(** The abstract relational comparison [x < y] of two Numbers. *)
Definition lt (x y : number) : bool :=
  match x, y with
  | NaN, _ | _, NaN => false
  | Infinity true, Infinity true => false
  | Infinity true, _ => true
  | _, Infinity true => false
  | Infinity false, _ => false
  | _, Infinity false => true
  | Finite a, Finite b => dec_ltb a b
  end.

(** ToBoolean of a Number. *)
Definition truthy (x : number) : bool :=
  match x with
  | NaN => false
  | Infinity _ => true
  | Finite d => negb (mant d =? 0)
  end.

(** *** parseFloat *)

(** ExponentPart: [e] or [E], an optional sign, at least one digit.  The
    result is the exponent read, zero when no exponent part is a prefix. *)
Definition parse_exponent (s : string) : Z :=
  match s with
  | String c s1 =>
      if (Chars.code c =? 101)%N || (Chars.code c =? 69)%N then
        let (neg, s2) :=
          match s1 with
          | String d s1' =>
              if (Chars.code d =? 45)%N then (true, s1')
              else if (Chars.code d =? 43)%N then (false, s1')
              else (false, s1)
          | EmptyString => (false, s1)
          end in
        let (ds, _) := Str.span Chars.is_digit s2 in
        if Str.is_empty ds then 0
        else if neg then - Str.digits_value ds else Str.digits_value ds
      else 0
  | EmptyString => 0
  end.

(** The decimal denoted by integer digits [ip], fraction digits [fp] and
    exponent [e]. *)
Definition decimal_of_parts (negative : bool) (ip fp : string) (e : Z) : decimal :=
  let m := Str.digits_value (ip ++ fp) in
  let flen := Z.of_nat (String.length fp) in
  let m' := m * pow10 (Z.to_nat (e - flen)) in
  Dec (if negative then - m' else m') (Z.to_nat (flen - e)).

(** StrUnsignedDecimalLiteral without the [Infinity] alternative:
    [digits . digits? exp?], [. digits exp?] or [digits exp?]. *)
Definition parse_unsigned (negative : bool) (s : string) : number :=
  let (ip, r1) := Str.span Chars.is_digit s in
  match r1 with
  | String c r2 =>
      if Chars.is_dot c then
        let (fp, r3) := Str.span Chars.is_digit r2 in
        if Str.is_empty ip && Str.is_empty fp then NaN
        else Finite (decimal_of_parts negative ip fp (parse_exponent r3))
      else
        if Str.is_empty ip then NaN
        else Finite (decimal_of_parts negative ip EmptyString (parse_exponent r1))
  | EmptyString =>
      if Str.is_empty ip then NaN
      else Finite (decimal_of_parts negative ip EmptyString 0)
  end.

Definition parse_signless (negative : bool) (s : string) : number :=
  match Str.strip_prefix "Infinity" s with
  | Some _ => Infinity negative
  | None => parse_unsigned negative s
  end.

(** [parseFloat(string)]: leading white space is skipped, then the longest
    prefix that is a StrDecimalLiteral is read; [NaN] when there is none. *)
Definition parseFloat (s : string) : number :=
  match Str.drop_while Chars.is_space s with
  | String c s' =>
      if (Chars.code c =? 45)%N then parse_signless true s'
      else if (Chars.code c =? 43)%N then parse_signless false s'
      else parse_signless false (String c s')
  | EmptyString => NaN
  end.

(** A block of digits denoting [n]: what it adds to a value read so far. *)
Definition digits_for (n : Z) (pre : string) : Prop :=
  Str.forallb Chars.is_digit pre = true /\ pre <> "" /\
  forall a, Str.digits_value_from a pre = a * pow10 (String.length pre) + n.


(** *** Number.prototype.toFixed *)

(** The integer [n] for which [n / 10 ^ f] is closest to [m / 10 ^ k]; of two
    such integers the larger one.  [m] is not negative. *)
Definition round_scaled (m : Z) (k f : nat) : Z :=
  (2 * m * pow10 f + pow10 k) / (2 * pow10 k).

(** Steps 10.c-10.d of toFixed: the digits of [n] with a decimal point before
    the last [f] of them, zero-padded on the left to [f + 1] digits. *)
Definition place_point (m : string) (f : nat) : string :=
  match f with
  | O => m
  | S _ =>
      let k := String.length m in
      let m' := if (k <=? f)%nat then Str.repeat "0"%char (f + 1 - k) ++ m else m in
      let k' := String.length m' in
      String.substring 0 (k' - f) m' ++ "." ++ String.substring (k' - f) f m'
  end.

(** Number::toString for a positive [m / 10 ^ k] that is at least [10 ^ 21]:
    the scientific form [d.ddd e+x] on the significant digits. *)
Definition toString_large (m : Z) (k : nat) : string :=
  let digits := Str.digits_of m in
  let n := Z.of_nat (String.length digits) - Z.of_nat k in
  let significant := Str.strip_trailing_zeros digits in
  match significant with
  | String d rest =>
      String d (if Str.is_empty rest then "" else "." ++ rest) ++ "e+" ++ Str.digits_of (n - 1)
  | EmptyString => "0"
  end.

Definition toFixed (x : number) (f : nat) : string :=
  match x with
  | NaN => "NaN"
  | Infinity false => "Infinity"
  | Infinity true => "-Infinity"
  | Finite d =>
      let s := if mant d <? 0 then "-" else "" in
      let m := Z.abs (mant d) in
      let k := scale d in
      s ++ (if pow10 21 * pow10 k <=? m then toString_large m k
            else place_point (Str.digits_of (round_scaled m k f)) f)
  end.

End Num.

(** ** JSON values as the endpoint sees them *)

Module Json.

Inductive json : Type :=
| JNull
| JBool (b : bool)
| JNum (d : Num.decimal)
| JStr (s : string)
| JArr (items : list json)
| JObj (fields : list (string * json)).

(** ToBoolean. *)
Definition truthy (v : json) : bool :=
  match v with
  | JNull => false
  | JBool b => b
  | JNum d => negb (Num.mant d =? 0)
  | JStr s => negb (Str.is_empty s)
  | JArr _ | JObj _ => true
  end.

(** ToBoolean of a value that may be [undefined]. *)
Definition truthy_opt (v : option json) : bool :=
  match v with Some x => truthy x | None => false end.

(** Own property [k] of a parsed object; of two members with the same name
    [JSON.parse] keeps the later one. *)
Fixpoint lookup (fields : list (string * json)) (k : string) : option json :=
  match fields with
  | [] => None
  | (k', v) :: rest =>
      match lookup rest k with
      | Some v' => Some v'
      | None => if String.eqb k' k then Some v else None
      end
  end.

(** [v.k] for a value that is neither [null] nor [undefined].  The names read
    by this program ([id], [metrics], [displayValue], ...) are not properties
    of the built-in prototypes, so only objects answer. *)
Definition get (v : json) (k : string) : option json :=
  match v with
  | JObj fields => lookup fields k
  | _ => None
  end.

(** [v[0]] for a value that is neither [null] nor [undefined]. *)
Definition first_item (v : json) : option json :=
  match v with
  | JArr items => List.hd_error items
  | JStr (String c _) => Some (JStr (String c EmptyString))
  | JObj fields => lookup fields "0"
  | _ => None
  end.

(** [v?.k]. *)
Definition opt_get (v : option json) (k : string) : option json :=
  match v with
  | None | Some JNull => None
  | Some x => get x k
  end.

(** [v || 'N/A']. *)
Definition or_NA (v : option json) : json :=
  match v with
  | Some x => if truthy x then x else JStr "N/A"
  | None => JStr "N/A"
  end.

(** A dot-path resolves in a document when every segment names a member of
    the object reached so far. *)
Inductive resolves : json -> list string -> json -> Prop :=
| resolves_here v : resolves v [] v
| resolves_member fields k v path r :
    lookup fields k = Some v ->
    resolves v path r ->
    resolves (JObj fields) (k :: path) r.

Definition absent (data : json) (path : list string) : Prop :=
  forall r, ~ resolves data path r.

End Json.

Import Json.

(** ** The analysis endpoint (API route [pagespeed]) *)

Module Route.

Inductive exn : Type :=
| TypeError
| SyntaxError
| FetchFailed
| HttpError (status : Z)
| StoreFailed.

(** The query sent to the PageSpeed API: the [url], [strategy] and [key]
    search parameters set on the request URL. *)
Record pagespeed_query : Type := {
  q_url : json;
  q_strategy : option string;
  q_key : option string
}.

(** The row handed to the store: the five parsed measurements, the url as
    received in the request and the strategy. *)
Record dbRecord : Type := {
  first_content_paint : Num.number;
  speed_index : Num.number;
  largest_content_paint : Num.number;
  total_blocking_time : Num.number;
  time_to_interactive : Num.number;
  url : json;
  device_strategy : json
}.

Inductive event : Type :=
| Fetch (q : pagespeed_query)
| Insert (r : dbRecord)
| ConsoleError (label : string)
| ConsoleLog (label : string).

(** A computation logs the effects it performs and ends in a value or in a
    thrown exception. *)
Definition M (A : Type) : Type := (list event * (exn + A))%type.

Definition ret {A} (a : A) : M A := ([], inr a).
Definition throw {A} (e : exn) : M A := ([], inl e).
Definition emit (ev : event) : M unit := ([ev], inr tt).

Definition bind {A B} (m : M A) (k : A -> M B) : M B :=
  match m with
  | (t, inl e) => (t, inl e)
  | (t, inr a) => let (t', r) := k a in ((t ++ t')%list, r)
  end.

Definition try_catch {A} (m : M A) (handler : exn -> M A) : M A :=
  match m with
  | (t, inl e) => let (t', r) := handler e in ((t ++ t')%list, r)
  | (t, inr a) => (t, inr a)
  end.

Definition lift {A} (r : exn + A) : M A := ([], r).

Declare Scope route_scope.
Delimit Scope route_scope with route.
Notation "x <- m ;; k" := (bind m (fun x => k))
  (at level 61, m at next level, right associativity) : route_scope.
Notation "m ;;; k" := (bind m (fun _ => k))
  (at level 61, right associativity) : route_scope.
Local Open Scope route_scope.

Definition trace {A} (m : M A) : list event := fst m.
Definition outcome {A} (m : M A) : exn + A := snd m.

(** *** The world outside the endpoint *)

Record response : Type := {
  ok : bool;
  status : Z;
  json_body : option json   (* [None]: [response.json()] rejects *)
}.

Inductive fetch_outcome : Type :=
| FetchRejects
| FetchResolves (r : response).

(** [await supabase.from(..).insert(..).select()] either rejects or resolves
    to [{ data, error }]. *)
Inductive insert_outcome : Type :=
| InsertRejects
| InsertResolves (data error : json).

Record world : Type := {
  request_json : option json;   (* [None]: [request.json()] rejects *)
  api_key : option string;      (* the API key of the environment *)
  upstream : pagespeed_query -> fetch_outcome;
  store : dbRecord -> insert_outcome
}.

(** *** The response *)

Record crux : Type := {
  crux_First_Contentful_Paint : json;
  crux_Interaction_to_Next_Paint : json
}.

Record lighthouse : Type := {
  First_Contentful_Paint : json;
  Speed_Index : json;
  Largest_Contentful_Paint : json;
  Total_Blocking_Time : json;
  Time_To_Interactive : json
}.

(** [id] and [databaseId] are [None] when the property is missing or
    [undefined]; such a property is not serialised. *)
Record result : Type := {
  id : option json;
  cruxMetrics : crux;
  lighthouseMetrics : lighthouse;
  databaseId : option json
}.

Inductive payload : Type :=
| ErrorBody (error : string)
| ResultBody (r : result).

Record http_response : Type := {
  http_status : Z;
  http_body : payload
}.

(** *** Metric extraction *)

(** [data.k]: a TypeError when [data] is [null]. *)
Definition member (data : json) (k : string) : exn + option json :=
  match data with
  | JNull => inl TypeError
  | _ => inr (get data k)
  end.

(** [data.k1?.k2?. ... ?.kn]. *)
Definition chain (data : json) (k1 : string) (ks : list string) : M (option json) :=
  v <- lift (member data k1) ;;
  ret (List.fold_left opt_get ks v).

Definition extract (data : json) : M result :=
  i <- lift (member data "id") ;;
  c1 <- chain data "loadingExperience" ["metrics"; "FIRST_CONTENTFUL_PAINT_MS"; "category"] ;;
  c2 <- chain data "loadingExperience" ["metrics"; "INTERACTION_TO_NEXT_PAINT"; "category"] ;;
  l1 <- chain data "lighthouseResult" ["audits"; "first-contentful-paint"; "displayValue"] ;;
  l2 <- chain data "lighthouseResult" ["audits"; "speed-index"; "displayValue"] ;;
  l3 <- chain data "lighthouseResult" ["audits"; "largest-contentful-paint"; "displayValue"] ;;
  l4 <- chain data "lighthouseResult" ["audits"; "total-blocking-time"; "displayValue"] ;;
  l5 <- chain data "lighthouseResult" ["audits"; "interactive"; "displayValue"] ;;
  ret {| id := i;
         cruxMetrics :=
           {| crux_First_Contentful_Paint := or_NA c1;
              crux_Interaction_to_Next_Paint := or_NA c2 |};
         lighthouseMetrics :=
           {| First_Contentful_Paint := or_NA l1;
              Speed_Index := or_NA l2;
              Largest_Contentful_Paint := or_NA l3;
              Total_Blocking_Time := or_NA l4;
              Time_To_Interactive := or_NA l5 |};
         databaseId := None |}.

(** *** Normalisation *)

(** [value.replace(/[^0-9.]/g, '')]. *)
Definition strip_non_numeric (value : string) : string :=
  Str.filter Chars.numeric_char value.

Definition parseMetricValue (value : string) : Num.number :=
  if Str.is_empty value || String.eqb value "N/A" then Num.zero
  else
    let numericValue := Num.parseFloat (strip_non_numeric value) in
    if Num.isNaN numericValue then Num.zero else numericValue.

(** [parseMetricValue] applied to whatever extraction produced: a value that
    is not a string has no [replace] method. *)
Definition parseMetricValue_any (value : json) : M Num.number :=
  if negb (truthy value) then ret Num.zero
  else
    match value with
    | JStr s => ret (parseMetricValue s)
    | _ => throw TypeError
    end.

Definition normalise (r : result) (targetUrl strategy : json) : M dbRecord :=
  let lh := lighthouseMetrics r in
  fcp <- parseMetricValue_any (First_Contentful_Paint lh) ;;
  si <- parseMetricValue_any (Speed_Index lh) ;;
  lcp <- parseMetricValue_any (Largest_Contentful_Paint lh) ;;
  tbt <- parseMetricValue_any (Total_Blocking_Time lh) ;;
  tti <- parseMetricValue_any (Time_To_Interactive lh) ;;
  ret {| first_content_paint := fcp;
         speed_index := si;
         largest_content_paint := lcp;
         total_blocking_time := tbt;
         time_to_interactive := tti;
         url := targetUrl;
         device_strategy := strategy |}.

(** *** Persistence *)

Definition insert (w : world) (r : dbRecord) : M (json * json) :=
  emit (Insert r) ;;;
  match store w r with
  | InsertRejects => throw StoreFailed
  | InsertResolves data error => ret (data, error)
  end.

Definition with_databaseId (r : result) (i : option json) : result :=
  {| id := id r;
     cruxMetrics := cruxMetrics r;
     lighthouseMetrics := lighthouseMetrics r;
     databaseId := i |}.

(** The inner [try { ... } catch (dbError) { ... }]. *)
Definition save (w : world) (r : dbRecord) (res : result) : M result :=
  try_catch
    (de <- insert w r ;;
     let (insertData, dbError) := de : json * json in
     if truthy dbError then
       emit (ConsoleError "Database error:") ;;; ret res
     else
       emit (ConsoleLog "Successfully saved to database:") ;;;
       if truthy insertData && truthy_opt (first_item insertData) then
         ret (with_databaseId res (opt_get (first_item insertData) "id"))
       else ret res)
    (fun _ => emit (ConsoleError "Database connection error:") ;;; ret res).

(** *** The request handler *)

(** [const { url: targetUrl, strategy = 'desktop' } = await request.json()]. *)
Definition read_request (w : world) : M (option json * json) :=
  match request_json w with
  | None => throw SyntaxError
  | Some JNull => throw TypeError
  | Some body =>
      ret (get body "url",
           match get body "strategy" with
           | Some s => s
           | None => JStr "desktop"
           end)
  end.

(** [strategy.toUpperCase()]. *)
Definition toUpperCase_any (strategy : json) : M string :=
  match strategy with
  | JStr s => ret (Str.toUpperCase s)
  | _ => throw TypeError
  end.

Definition fetch (w : world) (q : pagespeed_query) : M response :=
  emit (Fetch q) ;;;
  match upstream w q with
  | FetchRejects => throw FetchFailed
  | FetchResolves r => ret r
  end.

Definition response_json (r : response) : M json :=
  match json_body r with
  | Some data => ret data
  | None => throw SyntaxError
  end.

Definition json_response (status : Z) (body : payload) : http_response :=
  {| http_status := status; http_body := body |}.

(** [if (apiKey) url.searchParams.set('key', apiKey)]. *)
Definition key_param (apiKey : option string) : option string :=
  match apiKey with
  | Some k => if Str.is_empty k then None else Some k
  | None => None
  end.

(** Everything between the url check and the store insert. *)
Definition analyse (w : world) (targetUrl strategy : json) : M (result * dbRecord) :=
  upper <- toUpperCase_any strategy ;;
  let q := {| q_url := targetUrl;
              q_strategy := Some upper;
              q_key := key_param (api_key w) |} in
  resp <- fetch w q ;;
  if negb (ok resp) then throw (HttpError (status resp))
  else
    data <- response_json resp ;;
    res <- extract data ;;
    rec <- normalise res targetUrl strategy ;;
    ret (res, rec).

Definition POST (w : world) : M http_response :=
  try_catch
    (req <- read_request w ;;
     let (targetUrl, strategy) := req : option json * json in
     match targetUrl with
     | Some u =>
         if truthy u then
           a <- analyse w u strategy ;;
           let (res, rec) := a : result * dbRecord in
           res' <- save w rec res ;;
           ret (json_response 200 (ResultBody res'))
         else ret (json_response 400 (ErrorBody "URL is required"))
     | None => ret (json_response 400 (ErrorBody "URL is required"))
     end)
    (fun _ =>
       emit (ConsoleError "PageSpeed Insights API error:") ;;;
       ret (json_response 500 (ErrorBody "Failed to fetch PageSpeed data"))).

(** *** The endpoint without persistence ([api/pagespeed/route.ts]) *)

Definition POST_plain (w : world) : M http_response :=
  try_catch
    (match request_json w with
     | None => throw SyntaxError
     | Some JNull => throw TypeError
     | Some body =>
         match get body "url" with
         | Some u =>
             if truthy u then
               resp <- fetch w {| q_url := u; q_strategy := None;
                                  q_key := key_param (api_key w) |} ;;
               if negb (ok resp) then throw (HttpError (status resp))
               else
                 data <- response_json resp ;;
                 res <- extract data ;;
                 ret (json_response 200 (ResultBody res))
             else ret (json_response 400 (ErrorBody "URL is required"))
         | None => ret (json_response 400 (ErrorBody "URL is required"))
         end
     end)
    (fun _ =>
       emit (ConsoleError "PageSpeed Insights API error:") ;;;
       ret (json_response 500 (ErrorBody "Failed to fetch PageSpeed data"))).

(** *** Vocabulary of the statements *)

(** The seven tracked metrics, their dot-paths in the API document and their
    places in the result. *)
Inductive metric : Type :=
| crux_fcp | crux_inp | lh_fcp | lh_si | lh_lcp | lh_tbt | lh_tti.

Definition tracked_path (m : metric) : list string :=
  match m with
  | crux_fcp => ["loadingExperience"; "metrics"; "FIRST_CONTENTFUL_PAINT_MS"; "category"]
  | crux_inp => ["loadingExperience"; "metrics"; "INTERACTION_TO_NEXT_PAINT"; "category"]
  | lh_fcp => ["lighthouseResult"; "audits"; "first-contentful-paint"; "displayValue"]
  | lh_si => ["lighthouseResult"; "audits"; "speed-index"; "displayValue"]
  | lh_lcp => ["lighthouseResult"; "audits"; "largest-contentful-paint"; "displayValue"]
  | lh_tbt => ["lighthouseResult"; "audits"; "total-blocking-time"; "displayValue"]
  | lh_tti => ["lighthouseResult"; "audits"; "interactive"; "displayValue"]
  end.

Definition extracted (m : metric) (r : result) : json :=
  match m with
  | crux_fcp => crux_First_Contentful_Paint (cruxMetrics r)
  | crux_inp => crux_Interaction_to_Next_Paint (cruxMetrics r)
  | lh_fcp => First_Contentful_Paint (lighthouseMetrics r)
  | lh_si => Speed_Index (lighthouseMetrics r)
  | lh_lcp => Largest_Contentful_Paint (lighthouseMetrics r)
  | lh_tbt => Total_Blocking_Time (lighthouseMetrics r)
  | lh_tti => Time_To_Interactive (lighthouseMetrics r)
  end.

(** The stored measurement of a Lighthouse metric. *)
Definition measurement (m : metric) (r : dbRecord) : option Num.number :=
  match m with
  | crux_fcp | crux_inp => None
  | lh_fcp => Some (first_content_paint r)
  | lh_si => Some (speed_index r)
  | lh_lcp => Some (largest_content_paint r)
  | lh_tbt => Some (total_blocking_time r)
  | lh_tti => Some (time_to_interactive r)
  end.

(** The insert reported no error: the branch that logs the success. *)
Definition insert_succeeded (o : insert_outcome) : Prop :=
  exists data error, o = InsertResolves data error /\ truthy error = false.

(** The insert reported no error and returned the row with the identifier
    [i]. *)
Definition stored_with_id (o : insert_outcome) (i : json) : Prop :=
  exists data error row,
    o = InsertResolves data error /\ truthy error = false /\
    first_item data = Some row /\ truthy row = true /\ get row "id" = Some i.

Definition is_Fetch (ev : event) : bool :=
  match ev with Fetch _ => true | _ => false end.

Definition is_Insert (ev : event) : bool :=
  match ev with Insert _ => true | _ => false end.

Definition generic_failure : http_response :=
  json_response 500 (ErrorBody "Failed to fetch PageSpeed data").

Definition url_required : http_response :=
  json_response 400 (ErrorBody "URL is required").

(** The upstream call of a world fails: the fetch rejects or the response
    status is not a success. *)
Definition upstream_fails (o : fetch_outcome) : Prop :=
  match o with
  | FetchRejects => True
  | FetchResolves r => ok r = false
  end.

End Route.

(** ** Platform services used by the browser components *)

Module Platform.

(** [Array.prototype.sort(comparefn)].  SortCompare reads a NaN result of
    the comparator as zero.  The sort is stable, so for a consistent
    comparator the order below is the one every conforming engine produces:
    an element is placed before the first element it does not follow.  For a
    comparator that is not consistent the language leaves the order to the
    engine; the order below is that of an insertion sort, which leaves an
    array alone when no element compares below its left neighbour, as the
    run detection of V8 does. *)
Definition SortCompare {A} (comparefn : A -> A -> option Z) (x y : A) : Z :=
  match comparefn x y with
  | Some v => v
  | None => 0
  end.

Fixpoint insert {A} (comparefn : A -> A -> option Z) (x : A) (l : list A) : list A :=
  match l with
  | [] => [x]
  | y :: l' =>
      if SortCompare comparefn x y <=? 0 then x :: l
      else y :: insert comparefn x l'
  end.

Fixpoint Array_sort {A} (comparefn : A -> A -> option Z) (l : list A) : list A :=
  match l with
  | [] => []
  | x :: l' => insert comparefn x (Array_sort comparefn l')
  end.

(** A time value: milliseconds since the epoch, [None] for an Invalid Date. *)
Definition time := option Z.

Definition time_lt (a b : time) : bool :=
  match a, b with
  | Some x, Some y => x <? y
  | _, _ => false
  end.

(** [a.getTime() - b.getTime()]. *)
Definition time_sub (a b : time) : option Z :=
  match a, b with
  | Some x, Some y => Some (x - y)
  | _, _ => None
  end.

(** *** A date parser for the ISO form written by [toISOString] *)

Definition two_digits (a b : ascii) : option Z :=
  if Chars.is_digit a && Chars.is_digit b
  then Some (10 * Chars.digit_value a + Chars.digit_value b) else None.

Definition is_leap (y : Z) : bool :=
  ((y mod 4 =? 0) && negb (y mod 100 =? 0)) || (y mod 400 =? 0).

Definition days_in_month (y m : Z) : Z :=
  if m =? 2 then (if is_leap y then 29 else 28)
  else if (m =? 4) || (m =? 6) || (m =? 9) || (m =? 11) then 30 else 31.

(** Days from 1970-01-01 to the civil date [y-m-d]. *)
Definition days_from_civil (y m d : Z) : Z :=
  let y' := if m <=? 2 then y - 1 else y in
  let era := y' / 400 in
  let yoe := y' - era * 400 in
  let mp := (m + 9) mod 12 in
  let doy := (153 * mp + 2) / 5 + d - 1 in
  let doe := yoe * 365 + yoe / 4 - yoe / 100 + doy in
  era * 146097 + doe - 719468.

Definition make_time (y mo d h mi sec ms : Z) : time :=
  if (1 <=? mo) && (mo <=? 12) && (1 <=? d) && (d <=? days_in_month y mo)
     && (h <=? 23) && (mi <=? 59) && (sec <=? 59)
  then Some ((((days_from_civil y mo d * 24 + h) * 60 + mi) * 60 + sec) * 1000 + ms)
  else None.

(** [Date.parse] on [YYYY-MM-DDTHH:mm:ssZ] and [YYYY-MM-DDTHH:mm:ss.sssZ];
    every other string is taken as unparseable. *)
Definition iso_Date_parse (s : string) : time :=
  match list_ascii_of_string s with
  | [y1; y2; y3; y4; "-"; m1; m2; "-"; d1; d2; "T"; h1; h2; ":"; i1; i2; ":"; s1; s2; "Z"]%char =>
      match two_digits y1 y2, two_digits y3 y4, two_digits m1 m2, two_digits d1 d2,
            two_digits h1 h2, two_digits i1 i2, two_digits s1 s2 with
      | Some ya, Some yb, Some mo, Some d, Some h, Some mi, Some sec =>
          make_time (100 * ya + yb) mo d h mi sec 0
      | _, _, _, _, _, _, _ => None
      end
  | [y1; y2; y3; y4; "-"; m1; m2; "-"; d1; d2; "T"; h1; h2; ":"; i1; i2; ":"; s1; s2; ".";
     f1; f2; f3; "Z"]%char =>
      match two_digits y1 y2, two_digits y3 y4, two_digits m1 m2, two_digits d1 d2,
            two_digits h1 h2, two_digits i1 i2, two_digits s1 s2, two_digits f1 f2,
            two_digits "0" f3 with
      | Some ya, Some yb, Some mo, Some d, Some h, Some mi, Some sec, Some fa, Some fb =>
          make_time (100 * ya + yb) mo d h mi sec (10 * fa + fb)
      | _, _, _, _, _, _, _, _, _ => None
      end
  | _ => None
  end.

(** *** A host-name reader for [http(s)://host[:port][/...]] URLs *)

(** [new URL(u).hostname] on URLs of the form [http(s)://host[:port]] followed
    by nothing or by a path, query or fragment, the host a domain name; every
    other string is taken as not a URL. *)
Definition is_host_char (c : ascii) : bool :=
  let n := Chars.code c in
  ((97 <=? n)%N && (n <=? 122)%N) || ((65 <=? n)%N && (n <=? 90)%N)
  || Chars.is_digit c || (n =? 45)%N || (n =? 46)%N.

Definition is_port_end (rest : string) : bool :=
  match rest with
  | EmptyString => true
  | String c _ => (Chars.code c =? 47)%N || (Chars.code c =? 63)%N || (Chars.code c =? 35)%N
  end.

Definition after_scheme (u : string) : option string :=
  let low := Str.toLowerCase u in
  match Str.strip_prefix "https://" low with
  | Some r => Some r
  | None => Str.strip_prefix "http://" low
  end.

Definition http_hostname (u : string) : option string :=
  match after_scheme u with
  | None => None
  | Some r =>
      let (host, rest) := Str.span is_host_char r in
      if Str.is_empty host then None
      else
        match rest with
        | String c rest' =>
            if (Chars.code c =? 58)%N then
              let (_, rest'') := Str.span Chars.is_digit rest' in
              if is_port_end rest'' then Some host else None
            else if is_port_end rest then Some host else None
        | EmptyString => Some host
        end
  end.

(** *** Vocabulary of the statements *)

(** [x] may stand before [y] in the order of the comparator. *)
Definition precedes {A} (comparefn : A -> A -> option Z) (x y : A) : Prop :=
  SortCompare comparefn x y <= 0.

End Platform.

Import Platform.

(** ** A stored result, as the browser components receive it *)

Module Store.

(** [LighthouseResult] of [lib/supabase]; a field is [None] when the row
    carries no value for it. *)
Record LighthouseResult : Type := {
  id : option Z;
  created_at : option string;
  first_content_paint : option Num.number;
  speed_index : option Num.number;
  largest_content_paint : option Num.number;
  total_blocking_time : option Num.number;
  time_to_interactive : option Num.number;
  url : option string;
  device_strategy : option string
}.

End Store.

Import Store.

Section Browser.

(** [new URL(u).hostname]; [None] when the constructor throws. *)
Variable URL_hostname : string -> option string.

(** [Date.parse]; [None] for NaN. *)
Variable Date_parse : string -> time.

(** [new Date(created_at || 0)]. *)
Definition Date_of_created_at (c : option string) : time :=
  match c with
  | Some s => if Str.is_empty s then Some 0 else Date_parse s
  | None => Some 0
  end.

(** *** ResultsHistory *)

Inductive SortField : Type :=
| f_created_at
| f_first_content_paint
| f_speed_index
| f_largest_content_paint
| f_total_blocking_time
| f_time_to_interactive.

Inductive SortDirection : Type := asc | desc.

Inductive StrategyFilter : Type := all | desktop | mobile.

Definition strategy_label (f : StrategyFilter) : string :=
  match f with
  | all => "all"
  | desktop => "desktop"
  | mobile => "mobile"
  end.

(** [a[field]] for a numeric field. *)
Definition numeric_field (field : SortField) (r : LighthouseResult) : option Num.number :=
  match field with
  | f_created_at => None
  | f_first_content_paint => first_content_paint r
  | f_speed_index => speed_index r
  | f_largest_content_paint => largest_content_paint r
  | f_total_blocking_time => total_blocking_time r
  | f_time_to_interactive => time_to_interactive r
  end.

(** [a[field] || 0]. *)
Definition numeric_key (field : SortField) (r : LighthouseResult) : Num.number :=
  match numeric_field field r with
  | Some x => if Num.truthy x then x else Num.zero
  | None => Num.zero
  end.

(** [aValue < bValue] for the values the comparator builds. *)
Definition value_lt (field : SortField) (a b : LighthouseResult) : bool :=
  match field with
  | f_created_at =>
      time_lt (Date_of_created_at (created_at a)) (Date_of_created_at (created_at b))
  | _ => Num.lt (numeric_key field a) (numeric_key field b)
  end.

Definition compare_results (field : SortField) (direction : SortDirection)
    (a b : LighthouseResult) : option Z :=
  if value_lt field a b then Some (match direction with asc => -1 | desc => 1 end)
  else if value_lt field b a then Some (match direction with asc => 1 | desc => -1 end)
  else Some 0.

Definition sortResults (data : list LighthouseResult) (field : SortField)
    (direction : SortDirection) : list LighthouseResult :=
  Array_sort (compare_results field direction) data.

(** The callback of the website filter. *)
Definition matches_website (selectedWebsite : string) (r : LighthouseResult) : bool :=
  match url r with
  | None => false
  | Some u =>
      if Str.is_empty u then false
      else
        match URL_hostname u with
        | Some hostname => String.eqb hostname selectedWebsite
        | None => false
        end
  end.

Definition matches_strategy (strategyFilter : StrategyFilter) (r : LighthouseResult) : bool :=
  match device_strategy r with
  | Some d => String.eqb d (strategy_label strategyFilter)
  | None => false
  end.

(** The two filters of [fetchResults]. *)
Definition filterResults (results : list LighthouseResult)
    (selectedWebsite : option string) (strategyFilter : StrategyFilter)
    : list LighthouseResult :=
  let filteredResults :=
    match selectedWebsite with
    | Some w => if Str.is_empty w then results else List.filter (matches_website w) results
    | None => results
    end in
  match strategyFilter with
  | all => filteredResults
  | _ => List.filter (matches_strategy strategyFilter) filteredResults
  end.

Definition fetchResults (results : list LighthouseResult)
    (selectedWebsite : option string) (strategyFilter : StrategyFilter)
    (sortField : SortField) (sortDirection : SortDirection) : list LighthouseResult :=
  sortResults (filterResults results selectedWebsite strategyFilter) sortField sortDirection.

(** [x?.toFixed(f) || '']. *)
Definition fixed_cell (x : option Num.number) (f : nat) : string :=
  match x with
  | Some v => let t := Num.toFixed v f in if Str.is_empty t then "" else t
  | None => ""
  end.

(** The five measurement columns of a row of [exportToCSV]. *)
Definition csvMetricCells (r : LighthouseResult) : list string :=
  [ fixed_cell (first_content_paint r) 3;
    fixed_cell (speed_index r) 3;
    fixed_cell (largest_content_paint r) 3;
    fixed_cell (total_blocking_time r) 0;
    fixed_cell (time_to_interactive r) 3 ].

(** *** Sidenav *)

Record WebsiteGroup : Type := {
  g_url : string;
  g_domain : string;
  g_count : nat;
  g_lastTested : string;
  g_results : list LighthouseResult
}.

(** [groupMap]: a Map keeps its keys in insertion order. *)
Definition GroupMap : Type := list (string * list LighthouseResult).

(** [if (!groupMap.has(domain)) groupMap.set(domain, []);
     groupMap.get(domain).push(result)]. *)
Fixpoint push_result (groupMap : GroupMap) (domain : string) (r : LighthouseResult) : GroupMap :=
  match groupMap with
  | [] => [(domain, [r])]
  | (d, rs) :: rest =>
      if String.eqb d domain then (d, rs ++ [r])%list :: rest
      else (d, rs) :: push_result rest domain r
  end.

(** The body of [results.forEach]. *)
Definition add_result (groupMap : GroupMap) (r : LighthouseResult) : GroupMap :=
  match url r with
  | Some u =>
      if Str.is_empty u then groupMap
      else
        match URL_hostname u with
        | Some domain => push_result groupMap domain r
        | None => groupMap
        end
  | None => groupMap
  end.

Definition build_groupMap (results : list LighthouseResult) : GroupMap :=
  List.fold_left add_result results [].

(** Most recent first. *)
Definition compare_recent (a b : LighthouseResult) : option Z :=
  time_sub (Date_of_created_at (created_at b)) (Date_of_created_at (created_at a)).

Definition compare_groups (a b : WebsiteGroup) : option Z :=
  time_sub (Date_parse (g_lastTested b)) (Date_parse (g_lastTested a)).

Definition or_string (s : option string) (default : string) : string :=
  match s with
  | Some x => if Str.is_empty x then default else x
  | None => default
  end.

(** The callback of [entries.map]; [None] stands for the TypeError of reading
    a property of [sortedResults[0]] when it is [undefined]. *)
Definition make_group (entry : string * list LighthouseResult) : option WebsiteGroup :=
  let (domain, results) := entry in
  let sortedResults := Array_sort compare_recent results in
  match sortedResults with
  | first :: _ =>
      Some {| g_url := or_string (url first) domain;
              g_domain := domain;
              g_count := List.length sortedResults;
              g_lastTested := or_string (created_at first) "";
              g_results := sortedResults |}
  | [] => None
  end.

Fixpoint map_groups (entries : GroupMap) : option (list WebsiteGroup) :=
  match entries with
  | [] => Some []
  | e :: rest =>
      match make_group e with
      | Some g =>
          match map_groups rest with
          | Some gs => Some (g :: gs)
          | None => None
          end
      | None => None
      end
  end.

(** The groups computed by [fetchWebsiteGroups] from the fetched results;
    [None] when an exception reaches its [catch]. *)
Definition fetchWebsiteGroups (results : list LighthouseResult) : option (list WebsiteGroup) :=
  match map_groups (build_groupMap results) with
  | Some groups => Some (Array_sort compare_groups groups)
  | None => None
  end.

(** *** Vocabulary of the statements *)

(** [a] may stand before [b] in a sequence sorted by [field] in [direction]:
    [b] is not strictly before [a] under the comparison of the field. *)
Definition in_order (field : SortField) (direction : SortDirection)
    (a b : LighthouseResult) : Prop :=
  match direction with
  | asc => value_lt field b a = false
  | desc => value_lt field a b = false
  end.

(** The creation time of the record is absent or parses as a timestamp. *)
Definition timestamp_ok (r : LighthouseResult) : Prop :=
  Date_of_created_at (created_at r) <> None.

(** The field compares the record with others as a number or a timestamp:
    always for a numeric field, when the creation time parses for
    [created_at]. *)
Definition good_for (field : SortField) (r : LighthouseResult) : Prop :=
  field = f_created_at -> timestamp_ok r.

Definition comparable (field : SortField) (data : list LighthouseResult) : Prop :=
  List.Forall (good_for field) data.

(** The host name under which a record is grouped and filtered, if any. *)
Definition host_of (r : LighthouseResult) : option string :=
  match url r with
  | Some u => if Str.is_empty u then None else URL_hostname u
  | None => None
  end.

Definition hosted (domain : string) (r : LighthouseResult) : bool :=
  match host_of r with
  | Some d => String.eqb d domain
  | None => false
  end.

(** The domain selected in the side navigation, if any: the empty string
    selects nothing. *)
Definition selected (selectedWebsite : option string) : option string :=
  match selectedWebsite with
  | Some w => if Str.is_empty w then None else Some w
  | None => None
  end.

Definition has_strategy (label : string) (r : LighthouseResult) : bool :=
  match device_strategy r with
  | Some d => String.eqb d label
  | None => false
  end.

(** The records a view keeps: those of the selected domain, when one is
    selected, with the selected device class, when one is selected. *)
Definition kept (selectedWebsite : option string) (strategyFilter : StrategyFilter)
    (r : LighthouseResult) : bool :=
  match selected selectedWebsite with
  | Some d => hosted d r
  | None => true
  end
  &&
  match strategyFilter with
  | all => true
  | desktop => has_strategy "desktop" r
  | mobile => has_strategy "mobile" r
  end.




(** The records of a group are those of the collection with the host name of
    the group, and its count is their number. *)
Definition group_members (results : list LighthouseResult) (g : WebsiteGroup) : Prop :=
  Permutation (g_results g) (List.filter (hosted (g_domain g)) results) /\
  (forall r, In r (g_results g) <-> In r results /\ host_of r = Some (g_domain g)) /\
  g_count g = List.length (List.filter (hosted (g_domain g)) results).


(** The state of [groupMap] after the records [seen]: one entry for each host
    name met, holding the records of that host in the order met. *)
Definition groupMap_of (seen : list LighthouseResult) (groupMap : GroupMap) : Prop :=
  NoDup (List.map fst groupMap) /\
  (forall d rs, In (d, rs) groupMap -> rs = List.filter (hosted d) seen /\ rs <> []) /\
  (forall r d, In r seen -> host_of r = Some d -> In d (List.map fst groupMap)).


End Browser.

(** ** Sample inputs *)

Module Samples.

Import Route.

Definition example_request : json :=
  JObj [("url", JStr "https://example.com/"); ("strategy", JStr "desktop")].

Definition display (value : json) : json := JObj [("displayValue", value)].

(** A PageSpeed document with two of the five audits and no CrUX data. *)
Definition example_document : json :=
  JObj [("id", JStr "https://example.com/");
        ("lighthouseResult",
         JObj [("audits",
                JObj [("first-contentful-paint", display (JStr "2.3 s"));
                      ("speed-index", display (JStr ""));
                      ("total-blocking-time", display (JStr "1,250 ms"))])])].

(** What extraction and normalisation make of it. *)
Definition example_result : result :=
  {| id := Some (JStr "https://example.com/");
     cruxMetrics :=
       {| crux_First_Contentful_Paint := JStr "N/A";
          crux_Interaction_to_Next_Paint := JStr "N/A" |};
     lighthouseMetrics :=
       {| First_Contentful_Paint := JStr "2.3 s";
          Speed_Index := JStr "N/A";
          Largest_Contentful_Paint := JStr "N/A";
          Total_Blocking_Time := JStr "1,250 ms";
          Time_To_Interactive := JStr "N/A" |};
     databaseId := None |}.

Definition example_record : dbRecord :=
  {| first_content_paint := Num.Finite (Num.Dec 23 1);
     speed_index := Num.zero;
     largest_content_paint := Num.zero;
     total_blocking_time := Num.Finite (Num.Dec 1250 0);
     time_to_interactive := Num.zero;
     url := JStr "https://example.com/";
     device_strategy := JStr "desktop" |}.

Definition respond (r : response) : pagespeed_query -> fetch_outcome :=
  fun _ => FetchResolves r.

Definition ok_response (body : option json) : response :=
  {| ok := true; status := 200; json_body := body |}.

Definition stored_row : json := JObj [("id", JNum (Num.Dec 42 0))].

Definition world_of (request : option json) (up : pagespeed_query -> fetch_outcome)
    (st : insert_outcome) : world :=
  {| request_json := request; api_key := None; upstream := up; store := fun _ => st |}.

(** The store returns the inserted row. *)
Definition w_saved : world :=
  world_of (Some example_request) (respond (ok_response (Some example_document)))
           (InsertResolves (JArr [stored_row]) JNull).

(** The store reports no error and returns no row. *)
Definition w_saved_no_row : world :=
  world_of (Some example_request) (respond (ok_response (Some example_document)))
           (InsertResolves (JArr []) JNull).

(** The store client throws. *)
Definition w_store_down : world :=
  world_of (Some example_request) (respond (ok_response (Some example_document)))
           InsertRejects.

(** The PageSpeed API answers 500. *)
Definition w_upstream_500 : world :=
  world_of (Some example_request)
           (respond {| ok := false; status := 500; json_body := None |})
           InsertRejects.

(** The PageSpeed API answers 200 with a body that is not JSON. *)
Definition w_upstream_not_json : world :=
  world_of (Some example_request) (respond (ok_response None)) InsertRejects.

(** The request body is not JSON. *)
Definition w_bad_request : world :=
  world_of None (respond (ok_response (Some example_document))) InsertRejects.

(** The request carries a strategy that is not a string. *)
Definition w_bad_strategy : world :=
  world_of (Some (JObj [("url", JStr "https://example.com/"); ("strategy", JNum (Num.Dec 1 0))]))
           (respond (ok_response (Some example_document))) InsertRejects.

(** The request body is the JSON value [null]. *)
Definition w_null_body : world :=
  world_of (Some JNull) (respond (ok_response (Some example_document))) InsertRejects.

(** The PageSpeed API answers 200 with the JSON value [null]. *)
Definition w_null_document : world :=
  world_of (Some example_request) (respond (ok_response (Some JNull))) InsertRejects.

(** The request carries an empty url. *)
Definition w_empty_url : world :=
  world_of (Some (JObj [("url", JStr "")])) (respond (ok_response (Some example_document)))
           InsertRejects.

End Samples.

(** ** From the stored row to the exported cells *)

Module Csv.



End Csv.

(** ** Sample records *)

Module HistorySamples.

Definition record (created url strategy : string) : LighthouseResult :=
  {| id := None;
     created_at := Some created;
     first_content_paint := Some (Num.Finite (Num.Dec 23 1));
     speed_index := Some (Num.Finite (Num.Dec 31 1));
     largest_content_paint := Some (Num.Finite (Num.Dec 4 0));
     total_blocking_time := Some (Num.Finite (Num.Dec 150 0));
     time_to_interactive := Some (Num.Finite (Num.Dec 52 1));
     url := Some url;
     device_strategy := Some strategy |}.

Definition undated (url : string) : LighthouseResult :=
  {| id := None;
     created_at := None;
     first_content_paint := None;
     speed_index := None;
     largest_content_paint := None;
     total_blocking_time := None;
     time_to_interactive := None;
     url := Some url;
     device_strategy := None |}.

Definition jan1 : LighthouseResult :=
  record "2024-01-01T00:00:00Z" "https://a.com/x" "desktop".
Definition jan2 : LighthouseResult :=
  record "2024-01-02T00:00:00Z" "https://www.a.com/y" "mobile".
Definition jan3 : LighthouseResult :=
  record "2024-01-03T00:00:00Z" "https://c.com/" "desktop".


(** A record whose creation time is not a date. *)
Definition garbled : LighthouseResult :=
  record "not a date" "https://b.com/" "desktop".

End HistorySamples.

(** ** Further code of the components *)

(** *** Numbers written into text, and compared *)

Module JsNumber.

(** [x <= y] of two Numbers: false when either is NaN. *)
Definition le (x y : Num.number) : bool :=
  if Num.isNaN x || Num.isNaN y then false else negb (Num.lt y x).

(** Number::toString of an integer: its decimal digits below [10 ^ 21], the
    scientific form from there on. *)
Definition toString_int (n : Z) : string :=
  let m := Z.abs n in
  (if n <? 0 then "-" else "")
  ++ (if Num.pow10 21 <=? m then Num.toString_large m 0 else Str.digits_of m).

End JsNumber.

(** *** The form of [PageSpeedInsights] *)

Module Form.

Import Route.

(** What the form shows after a submission; [refreshes] counts the calls of
    [onNewResult]. *)
Record state : Type := {
  data : option payload;
  error : option string;
  successMessage : option json;   (* the identifier in the message *)
  refreshes : nat
}.

Definition cleared : state :=
  {| data := None; error := None; successMessage := None; refreshes := 0 |}.

(** [response.ok]. *)
Definition response_ok (r : http_response) : bool :=
  (200 <=? http_status r) && (http_status r <=? 299).

(** [errorData.error || 'Failed to fetch data']. *)
Definition error_text (body : payload) : string :=
  match body with
  | ErrorBody e => if Str.is_empty e then "Failed to fetch data" else e
  | ResultBody _ => "Failed to fetch data"
  end.

(** [result.databaseId]. *)
Definition body_databaseId (body : payload) : option json :=
  match body with
  | ResultBody r => databaseId r
  | ErrorBody _ => None
  end.

(** The body the form sends: [JSON.stringify({ url })]. *)
Definition request_body (url : string) : json := JObj [("url", JStr url)].

(** [handleSubmit] against an endpoint; [message] is the text of an exception
    that rejects the fetch. *)
Definition handleSubmit (message : exn -> string)
    (endpoint : json -> M http_response) (url : string) : list event * state :=
  let (t, o) := endpoint (request_body url) in
  match o with
  | inl e =>
      (t, {| data := None; error := Some (message e);
             successMessage := None; refreshes := 0 |})
  | inr response =>
      if negb (response_ok response) then
        (t, {| data := None; error := Some (error_text (http_body response));
               successMessage := None; refreshes := 0 |})
      else
        let result := http_body response in
        if truthy_opt (body_databaseId result) then
          (t, {| data := Some result; error := None;
                 successMessage := body_databaseId result; refreshes := 1 |})
        else
          (t, {| data := Some result; error := None;
                 successMessage := None; refreshes := 0 |})
  end.

(** The world of a request sent by the form. *)
Definition with_request (w : world) (body : json) : world :=
  {| request_json := Some body; api_key := api_key w;
     upstream := upstream w; store := store w |}.

(** The form in front of the analysis endpoint. *)
Definition submit (message : exn -> string) (w : world) (url : string) : list event * state :=
  handleSubmit message (fun body => POST (with_request w body)) url.

(** *** Vocabulary of the statements *)

Definition fetch_strategy (ev : event) : option (option string) :=
  match ev with Fetch q => Some (q_strategy q) | _ => None end.

(** The event is not a fetch with another strategy than [s], nor an insert
    with another url or strategy than [u] and [label]. *)
Definition event_for (u : string) (s label : string) (ev : event) : Prop :=
  match ev with
  | Fetch q => q_url q = JStr u /\ q_strategy q = Some s
  | Insert r => url r = JStr u /\ device_strategy r = JStr label
  | _ => True
  end.

End Form.

(** *** Further views *)

Section Views.

Variable URL_hostname : string -> option string.
Variable Date_parse : string -> time.

(** [Date.prototype.toISOString] of a valid time value. *)
Variable Date_toISOString : Z -> string.

(** [Date.prototype.toLocaleDateString], also of an Invalid Date. *)
Variable toLocaleDateString : time -> string.

(** **** ResultsHistory: colours *)

Definition green : string := "text-green-400 bg-green-900/30 border-green-700".
Definition yellow : string := "text-yellow-400 bg-yellow-900/30 border-yellow-700".
Definition red : string := "text-red-400 bg-red-900/30 border-red-700".
Definition gray : string := "text-gray-400 bg-gray-800/50 border-gray-600".

(** The two tests of a case of [getMetricColor]. *)
Definition grade (good fair : Num.decimal) (value : Num.number) : string :=
  if JsNumber.le value (Num.Finite good) then green
  else if JsNumber.le value (Num.Finite fair) then yellow
  else red.

Definition getMetricColor (metric : string) (value : Num.number) : string :=
  if String.eqb metric "first_content_paint" then grade (Num.Dec 18 1) (Num.Dec 30 1) value
  else if String.eqb metric "largest_content_paint" then grade (Num.Dec 25 1) (Num.Dec 40 1) value
  else if String.eqb metric "speed_index" then grade (Num.Dec 34 1) (Num.Dec 58 1) value
  else if String.eqb metric "time_to_interactive" then grade (Num.Dec 38 1) (Num.Dec 73 1) value
  else if String.eqb metric "total_blocking_time" then grade (Num.Dec 200 0) (Num.Dec 600 0) value
  else gray.

Definition field_name (field : SortField) : string :=
  match field with
  | f_created_at => "created_at"
  | f_first_content_paint => "first_content_paint"
  | f_speed_index => "speed_index"
  | f_largest_content_paint => "largest_content_paint"
  | f_total_blocking_time => "total_blocking_time"
  | f_time_to_interactive => "time_to_interactive"
  end.

Definition direction_name (direction : SortDirection) : string :=
  match direction with asc => "asc" | desc => "desc" end.

(** The colour of a tile: [getMetricColor(name, result[name] || 0)]. *)
Definition tile_color (field : SortField) (r : LighthouseResult) : string :=
  getMetricColor (field_name field) (numeric_key field r).

(** **** ResultsHistory: the sort controls *)

Definition handleSort (field : SortField) (st : SortField * SortDirection)
    : SortField * SortDirection :=
  let (sortField, sortDirection) := st in
  if String.eqb (field_name field) (field_name sortField)
  then (sortField, match sortDirection with asc => desc | desc => asc end)
  else (field, desc).

(** [s.split(sep)] for a separator of one character. *)
Fixpoint split_on (sep : ascii) (s : string) : list string :=
  match s with
  | EmptyString => [EmptyString]
  | String c s' =>
      if Ascii.eqb c sep then EmptyString :: split_on sep s'
      else
        match split_on sep s' with
        | first :: rest => String c first :: rest
        | [] => [String c EmptyString]
        end
  end.

(** The value of an option of the sort menu: [`${sortField}-${sortDirection}`]. *)
Definition option_value (field direction : string) : string :=
  field ++ "-" ++ direction.

(** [const [field, direction] = e.target.value.split('-')]. *)
Definition selected_sort (value : string) : option string * option string :=
  let parts := split_on "-" value in
  (List.nth_error parts 0, List.nth_error parts 1).

(** **** ResultsHistory: the export *)

Inductive export_outcome : Type :=
| NothingToExport                        (* the alert *)
| RangeError                             (* [toISOString] of an Invalid Date *)
| Download (filename content : string).

Definition headers : list string :=
  [ "ID"; "Created At"; "URL"; "Device Strategy"; "First Content Paint (s)";
    "Speed Index (s)"; "Largest Content Paint (s)"; "Total Blocking Time (ms)";
    "Time to Interactive (s)" ].

(** [result.id || ''], as the template writes it. *)
Definition id_cell (i : option Z) : string :=
  match i with
  | Some n => if n =? 0 then "" else JsNumber.toString_int n
  | None => ""
  end.

(** [result.created_at ? new Date(result.created_at).toISOString() : '']. *)
Definition created_cell (c : option string) : option string :=
  match c with
  | Some s =>
      if Str.is_empty s then Some ""
      else match Date_parse s with
           | Some t => Some (Date_toISOString t)
           | None => None
           end
  | None => Some ""
  end.

(** One element of [csvRows]; [None] when [toISOString] throws. *)
Definition csvRow (r : LighthouseResult) : option (list string) :=
  match created_cell (created_at r) with
  | Some created =>
      Some (id_cell (id r) :: created :: or_string (url r) ""
              :: or_string (device_strategy r) "" :: csvMetricCells r)
  | None => None
  end.

Fixpoint csvRows (results : list LighthouseResult) : option (list (list string)) :=
  match results with
  | [] => Some []
  | r :: rest =>
      match csvRow r with
      | Some row =>
          match csvRows rest with
          | Some rows => Some (row :: rows)
          | None => None
          end
      | None => None
      end
  end.

(** [parts.join(sep)]. *)
Fixpoint join (sep : string) (parts : list string) : string :=
  match parts with
  | [] => ""
  | [p] => p
  | p :: rest => p ++ sep ++ join sep rest
  end.

Definition quote : ascii := ascii_of_N 34.

(** [`"${field}"`]. *)
Definition quoted (field : string) : string :=
  String quote (field ++ String quote "").

Definition csvContent (rows : list (list string)) : string :=
  join (String (ascii_of_N 10) "") (List.map (fun row => join "," (List.map quoted row)) rows).

Definition is_alphanumeric (c : ascii) : bool :=
  let n := Chars.code c in
  ((97 <=? n)%N && (n <=? 122)%N) || ((65 <=? n)%N && (n <=? 90)%N) || Chars.is_digit c.

(** [selectedWebsite.replace(/[^a-zA-Z0-9]/g, '_')]. *)
Definition sanitize (s : string) : string :=
  Str.map (fun c => if is_alphanumeric c then c else "_"%char) s.

Definition export_filename (dateStr : string) (selectedWebsite : option string)
    (strategyFilter : StrategyFilter) : string :=
  let websiteFilter :=
    match selectedWebsite with
    | Some w => if Str.is_empty w then "" else "_" ++ sanitize w
    | None => ""
    end in
  let strategyFilter_str :=
    match strategyFilter with
    | all => ""
    | _ => "_" ++ strategy_label strategyFilter
    end in
  "lighthouse_results_" ++ dateStr ++ websiteFilter ++ strategyFilter_str ++ ".csv".

(** [exportToCSV] on the displayed [results]; [dateStr] is the day of the
    clock, [now.toISOString().split('T')[0]]. *)
Definition exportToCSV (dateStr : string) (results : list LighthouseResult)
    (selectedWebsite : option string) (strategyFilter : StrategyFilter) : export_outcome :=
  match results with
  | [] => NothingToExport
  | _ :: _ =>
      match csvRows results with
      | Some rows =>
          Download (export_filename dateStr selectedWebsite strategyFilter)
                   (csvContent (headers :: rows))
      | None => RangeError
      end
  end.

(** **** PerformanceChart *)

Record ChartDataPoint : Type := {
  p_date : string;
  p_timestamp : time;
  p_first_content_paint : Num.number;
  p_speed_index : Num.number;
  p_largest_content_paint : Num.number;
  p_total_blocking_time : Num.number;
  p_time_to_interactive : Num.number;
  p_url : option string;
  p_device_strategy : option string
}.

(** Oldest first: [dateA - dateB]. *)
Definition compare_oldest (a b : LighthouseResult) : option Z :=
  time_sub (Date_of_created_at Date_parse (created_at a))
           (Date_of_created_at Date_parse (created_at b)).

(** [fetchResults] of the chart: the two filters of the history view, then
    the sort by date. *)
Definition chart_fetchResults (results : list LighthouseResult)
    (selectedWebsite : option string) (strategyFilter : StrategyFilter)
    : list LighthouseResult :=
  Array_sort compare_oldest (filterResults URL_hostname results selectedWebsite strategyFilter).

Definition chart_point (result : LighthouseResult) : ChartDataPoint :=
  let present :=
    match created_at result with
    | Some c => if Str.is_empty c then None else Some c
    | None => None
    end in
  {| p_date := match present with
               | Some c => toLocaleDateString (Date_parse c)
               | None => "Unknown"
               end;
     p_timestamp := match present with
                    | Some c => Date_parse c
                    | None => Some 0
                    end;
     p_first_content_paint := numeric_key f_first_content_paint result;
     p_speed_index := numeric_key f_speed_index result;
     p_largest_content_paint := numeric_key f_largest_content_paint result;
     p_total_blocking_time := numeric_key f_total_blocking_time result;
     p_time_to_interactive := numeric_key f_time_to_interactive result;
     p_url := url result;
     p_device_strategy := device_strategy result |}.

Definition chartData (results : list LighthouseResult) : list ChartDataPoint :=
  List.map chart_point results.

(** [prev.includes(metric) ? prev.filter(m => m !== metric) : [...prev, metric]]. *)
Definition toggleMetric (metric : string) (prev : list string) : list string :=
  if List.existsb (String.eqb metric) prev
  then List.filter (fun m => negb (String.eqb m metric)) prev
  else (prev ++ [metric])%list.

(** **** Sidenav: labels *)

(** [domain.replace(/^www\./, '')]. *)
Definition formatDomain (domain : string) : string :=
  match Str.strip_prefix "www." domain with
  | Some rest => rest
  | None => domain
  end.

(** [getRelativeTime] at the clock time [now]. *)
Definition getRelativeTime (now : Z) (dateString : string) : string :=
  let date := Date_parse dateString in
  match date with
  | Some t =>
      let diffInHours := (now - t) / (1000 * 60 * 60) in
      if diffInHours <? 1 then "Just now"
      else if diffInHours <? 24 then JsNumber.toString_int diffInHours ++ "h ago"
      else
        let diffInDays := diffInHours / 24 in
        if diffInDays <? 7 then JsNumber.toString_int diffInDays ++ "d ago"
        else toLocaleDateString date
  | None => toLocaleDateString date
  end.

(** **** Vocabulary of the statements *)


(** The chart point is not later than the next. *)
Definition point_le (a b : ChartDataPoint) : Prop :=
  exists ta tb, p_timestamp a = Some ta /\ p_timestamp b = Some tb /\ ta <= tb.

(** The record has a url that parses. *)
Definition has_host (r : LighthouseResult) : bool :=
  match host_of URL_hostname r with
  | Some _ => true
  | None => false
  end.

(** The creation time of the record can be written into the export: it is
    absent, empty or parses. *)
Definition exportable (r : LighthouseResult) : bool :=
  match created_cell (created_at r) with
  | Some _ => true
  | None => false
  end.

(** A row of the export: the nine cells of a record. *)
Definition row_of (r : LighthouseResult) (row : list string) : Prop :=
  exists created,
    created_cell (created_at r) = Some created /\
    row = ([id_cell (id r); created; or_string (url r) "";
            or_string (device_strategy r) ""] ++ csvMetricCells r)%list /\
    List.length row = List.length headers.

(** The characters [sanitize] leaves in a file name. *)
Definition filename_char (c : ascii) : bool :=
  is_alphanumeric c || Ascii.eqb c "_".

Definition no_hyphen (s : string) : bool :=
  Str.forallb (fun c => negb (Ascii.eqb c "-")) s.

(** The colours from best to worst. *)
Definition severity (color : string) : option nat :=
  if String.eqb color green then Some 0%nat
  else if String.eqb color yellow then Some 1%nat
  else if String.eqb color red then Some 2%nat
  else None.

End Views.

(** ** Further sample data *)

Module MoreSamples.

Import Route Samples.

(** The Lighthouse metrics among the tracked ones: those the record keeps. *)
Definition is_lighthouse (m : metric) : bool :=
  match m with
  | crux_fcp | crux_inp => false
  | _ => true
  end.

(** A PageSpeed document whose speed index is displayed as a number. *)
Definition numeric_document : json :=
  JObj [("id", JStr "https://example.com/");
        ("lighthouseResult",
         JObj [("audits",
                JObj [("first-contentful-paint", display (JStr "2.3 s"));
                      ("speed-index", display (JNum (Num.Dec 34 1)))])])].

Definition w_numeric : world :=
  world_of (Some example_request) (respond (ok_response (Some numeric_document)))
           (InsertResolves (JArr [stored_row]) JNull).

(** Three records of three hosts, and the groups made of them. *)
Definition history : list LighthouseResult :=
  [HistorySamples.jan1; HistorySamples.jan2; HistorySamples.jan3].

Definition group_of (r : LighthouseResult) (domain created u : string) : WebsiteGroup :=
  {| g_url := u; g_domain := domain; g_count := 1; g_lastTested := created;
     g_results := [r] |}.

Definition a_com : WebsiteGroup :=
  group_of HistorySamples.jan1 "a.com" "2024-01-01T00:00:00Z" "https://a.com/x".

Definition history_groups : list WebsiteGroup :=
  [ group_of HistorySamples.jan3 "c.com" "2024-01-03T00:00:00Z" "https://c.com/";
    group_of HistorySamples.jan2 "www.a.com" "2024-01-02T00:00:00Z" "https://www.a.com/y";
    a_com ].

(** [example_document] with members the endpoint does not track. *)
Definition verbose_document : json :=
  JObj [("kind", JStr "pagespeedonline#result");
        ("id", JStr "https://example.com/");
        ("analysisUTCTimestamp", JStr "2024-01-01T00:00:00.000Z");
        ("lighthouseResult",
         JObj [("audits",
                JObj [("first-contentful-paint", display (JStr "2.3 s"));
                      ("speed-index", display (JStr ""));
                      ("total-blocking-time", display (JStr "1,250 ms"))])])].

End MoreSamples.


(** * Properties *)

(** ** Array.prototype.sort *)

Section SortFacts.

Context {A : Type} (comparefn : A -> A -> option Z).

Abbreviation before := (precedes comparefn).

Lemma insert_Permutation x l : Permutation (x :: l) (insert comparefn x l).
Proof.
  induction l as [|y l IH]; simpl; [reflexivity|].
  destruct (SortCompare comparefn x y <=? 0); [reflexivity|].
  rewrite perm_swap. now constructor.
Qed.

Lemma Array_sort_Permutation l : Permutation l (Array_sort comparefn l).
Proof.
  induction l as [|x l IH]; simpl; [constructor|].
  rewrite <- insert_Permutation. now constructor.
Qed.

Lemma Array_sort_length l : List.length (Array_sort comparefn l) = List.length l.
Proof. symmetry. apply Permutation_length, Array_sort_Permutation. Qed.

(** An element that may stand before the head is inserted at the head. *)
Lemma insert_head x l :
  HdRel before x l -> insert comparefn x l = x :: l.
Proof.
  destruct l as [|y l]; [reflexivity|]. intros H. inversion H as [|? ? Hxy]; subst.
  simpl. unfold precedes in Hxy. apply Z.leb_le in Hxy. now rewrite Hxy.
Qed.

(** A sequence whose neighbours are in order is left as it is. *)
Lemma Array_sort_sorted_id l :
  Sorted before l -> Array_sort comparefn l = l.
Proof.
  induction 1 as [|x l Hs IH Hhd]; simpl; [reflexivity|].
  rewrite IH. now apply insert_head.
Qed.

(** The comparator is a total preorder on the elements satisfying [good]. *)
Variable good : A -> Prop.
Hypothesis before_total :
  forall x y, good x -> good y -> before x y \/ before y x.
Hypothesis before_trans :
  forall x y z, good x -> good y -> good z -> before x y -> before y z -> before x z.

Lemma insert_StronglySorted x l :
  good x -> Forall good l ->
  StronglySorted before l -> StronglySorted before (insert comparefn x l).
Proof.
  intros Hx Hl Hs. induction Hs as [|y l Hs IH Hy]; simpl.
  - repeat constructor.
  - inversion Hl as [|? ? Hgy Hgl]; subst.
    destruct (SortCompare comparefn x y <=? 0) eqn:E.
    + apply Z.leb_le in E. constructor; [now constructor|].
      constructor; [exact E|].
      rewrite Forall_forall in Hy, Hgl |- *. intros z Hz.
      apply (before_trans x y z); auto.
    + apply Z.leb_gt in E. constructor; [now apply IH|].
      assert (Hyx : before y x).
      { destruct (before_total x y Hx Hgy) as [H|H]; [unfold precedes in H; lia|exact H]. }
      rewrite Forall_forall in Hy |- *. intros z Hz.
      apply (Permutation_in _ (Permutation_sym (insert_Permutation x l))) in Hz.
      destruct Hz as [<-|Hz]; auto.
Qed.

Lemma Array_sort_StronglySorted l :
  Forall good l -> StronglySorted before (Array_sort comparefn l).
Proof.
  induction l as [|x l IH]; simpl; intros H; [constructor|].
  inversion H as [|? ? Hx Hl]; subst.
  apply insert_StronglySorted; auto.
  rewrite Forall_forall in Hl |- *. intros z Hz. apply Hl.
  apply (Permutation_in _ (Permutation_sym (Array_sort_Permutation l))), Hz.
Qed.

End SortFacts.

(** ** Digit strings *)

Module StrFacts.





Lemma forallb_app p a b :
  Str.forallb p (a ++ b) = Str.forallb p a && Str.forallb p b.
Proof.
  induction a as [|c a IH]; simpl; [reflexivity|].
  now rewrite IH, andb_assoc.
Qed.


End StrFacts.

(** ** parseFloat on strings of digits and points *)

Module NumFacts.

Import StrFacts.

Lemma pow10_pos n : 0 < Num.pow10 n.
Proof. unfold Num.pow10. apply Z.pow_pos_nonneg; lia. Qed.



Lemma numeric_char_cases c :
  Chars.numeric_char c = true ->
  Chars.is_space c = false /\ (Chars.code c =? 45)%N = false /\
  (Chars.code c =? 43)%N = false /\ Ascii.eqb "I"%char c = false.
Proof.
  unfold Chars.numeric_char, Chars.is_digit, Chars.is_dot, Chars.is_space.
  intros H.
  assert (Hc : (48 <= Chars.code c <= 57)%N \/ Chars.code c = 46%N).
  { apply orb_true_iff in H as [H|H].
    - apply andb_true_iff in H as [H1 H2]. apply N.leb_le in H1, H2. lia.
    - apply N.eqb_eq in H. now right. }
  assert (HI : Ascii.eqb "I"%char c = false).
  { apply Ascii.eqb_neq. intros <-. change (Chars.code "I") with 73%N in Hc. lia. }
  repeat split; try assumption.
  - apply orb_false_iff; split; [apply orb_false_iff; split|].
    + apply andb_false_iff.
      destruct Hc as [Hc|Hc]; right; apply N.leb_gt; lia.
    + apply N.eqb_neq; lia.
    + apply N.eqb_neq; lia.
  - apply N.eqb_neq; lia.
  - apply N.eqb_neq; lia.
Qed.


End NumFacts.

(** ** The analysis endpoint *)

Module RouteFacts.

Import Route StrFacts NumFacts.


Lemma parseMetricValue_any_pure value :
  exists o, parseMetricValue_any value = ([], o).
Proof.
  unfold parseMetricValue_any.
  destruct (negb (truthy value)); [now eexists|].
  destruct value; now eexists.
Qed.

(** What [normalise] stores for a metric is what [parseMetricValue] reads in
    the extracted value. *)
Lemma normalise_measurement res targetUrl strategy rec :
  outcome (normalise res targetUrl strategy) = inr rec ->
  forall m x, measurement m rec = Some x ->
              outcome (parseMetricValue_any (extracted m res)) = inr x.
Proof.
  unfold normalise.
  destruct (parseMetricValue_any_pure (First_Contentful_Paint (lighthouseMetrics res))) as [o1 E1].
  destruct (parseMetricValue_any_pure (Speed_Index (lighthouseMetrics res))) as [o2 E2].
  destruct (parseMetricValue_any_pure (Largest_Contentful_Paint (lighthouseMetrics res))) as [o3 E3].
  destruct (parseMetricValue_any_pure (Total_Blocking_Time (lighthouseMetrics res))) as [o4 E4].
  destruct (parseMetricValue_any_pure (Time_To_Interactive (lighthouseMetrics res))) as [o5 E5].
  rewrite E1, E2, E3, E4, E5.
  destruct o1 as [e1|v1]; [discriminate|].
  destruct o2 as [e2|v2]; [discriminate|].
  destruct o3 as [e3|v3]; [discriminate|].
  destruct o4 as [e4|v4]; [discriminate|].
  destruct o5 as [e5|v5]; [discriminate|].
  simpl. intros [= <-] m x.
  destruct m; simpl; try discriminate; intros [= <-];
    unfold extracted; rewrite ?E1, ?E2, ?E3, ?E4, ?E5; reflexivity.
Qed.

Lemma normalise_pure res targetUrl strategy :
  trace (normalise res targetUrl strategy) = [].
Proof.
  unfold normalise.
  destruct (parseMetricValue_any_pure (First_Contentful_Paint (lighthouseMetrics res))) as [o1 E1].
  destruct (parseMetricValue_any_pure (Speed_Index (lighthouseMetrics res))) as [o2 E2].
  destruct (parseMetricValue_any_pure (Largest_Contentful_Paint (lighthouseMetrics res))) as [o3 E3].
  destruct (parseMetricValue_any_pure (Total_Blocking_Time (lighthouseMetrics res))) as [o4 E4].
  destruct (parseMetricValue_any_pure (Time_To_Interactive (lighthouseMetrics res))) as [o5 E5].
  rewrite E1, E2, E3, E4, E5.
  destruct o1, o2, o3, o4, o5; reflexivity.
Qed.




(** *** Extraction *)

Lemma fold_opt_get_None path : List.fold_left opt_get path None = None.
Proof. induction path; simpl; auto. Qed.

Lemma resolves_fold v path r :
  resolves v path r -> List.fold_left opt_get path (Some v) = Some r.
Proof. induction 1; simpl; [reflexivity|]. now rewrite H. Qed.

Lemma fold_resolves path :
  forall v r, List.fold_left opt_get path (Some v) = Some r -> resolves v path r.
Proof.
  induction path as [|k path IH]; simpl; intros v r H.
  - inversion H. constructor.
  - destruct v; simpl in H; try (rewrite fold_opt_get_None in H; discriminate).
    destruct (lookup fields k) as [v'|] eqn:Hk.
    + econstructor; eauto.
    + rewrite fold_opt_get_None in H. discriminate.
Qed.

Lemma absent_fold data path :
  absent data path -> List.fold_left opt_get path (Some data) = None.
Proof.
  intros H. destruct (List.fold_left opt_get path (Some data)) as [r|] eqn:E; [|reflexivity].
  exfalso. apply (H r). now apply fold_resolves.
Qed.

(** On a document other than [null] extraction performs no effect, does not
    throw, and each field is the value at its path or the sentinel. *)
Lemma extract_value data :
  data <> JNull ->
  exists res,
    extract data = ([], inr res) /\
    id res = get data "id" /\
    databaseId res = None /\
    forall m, extracted m res = or_NA (List.fold_left opt_get (tracked_path m) (Some data)).
Proof.
  intros Hnull.
  destruct data; try contradiction;
    (eexists; split; [reflexivity|]; split; [reflexivity|]; split; [reflexivity|];
     intros m; destruct m; reflexivity).
Qed.

Lemma extract_null : extract JNull = ([], inl TypeError).
Proof. reflexivity. Qed.

Lemma extract_pure data : trace (extract data) = [].
Proof.
  destruct data; reflexivity.
Qed.

(** C2, as the code has it.  For every API document other than the value
    [null], whichever of the
    seven tracked paths are missing, extraction does not throw (and performs
    no effect), and every metric whose path has an absent segment is exactly
    the sentinel ["N/A"]. *)
Theorem extract_never_throws :
  forall data, data <> JNull ->
    exists res,
      extract data = ([], inr res) /\
      forall m, absent data (tracked_path m) -> extracted m res = JStr "N/A".
Proof.
  intros data Hnull.
  destruct (extract_value data Hnull) as (res & E & _ & _ & Hm).
  exists res; split; [assumption|].
  intros m Habs. rewrite Hm, (absent_fold _ _ Habs). reflexivity.
Qed.

Lemma extract_never_throws_witness :
  Samples.example_document <> JNull /\
  absent Samples.example_document (tracked_path crux_fcp) /\
  exists res,
    extract Samples.example_document = ([], inr res) /\
    extracted crux_fcp res = JStr "N/A".
Proof.
  assert (Hnull : Samples.example_document <> JNull) by discriminate.
  assert (Habs : absent Samples.example_document (tracked_path crux_fcp)).
  { intros r H. apply resolves_fold in H. discriminate H. }
  split; [exact Hnull|]. split; [exact Habs|].
  destruct (extract_never_throws Samples.example_document Hnull) as (res & E & Hm).
  exists res. split; [exact E|]. apply Hm, Habs.
Defined.

(** C2 as stated fails on the document [null]: all seven paths are absent
    and reading [data.id] throws; the endpoint answers 500. *)
Lemma extract_null_throws :
  (forall m, absent JNull (tracked_path m)) /\
  extract JNull = ([], inl TypeError) /\
  outcome (POST Samples.w_null_document) = inr generic_failure /\
  ~ (forall data, exists res, outcome (extract data) = inr res).
Proof.
  split; [|split; [|split]].
  - intros m r H. apply resolves_fold in H. destruct m; discriminate H.
  - reflexivity.
  - reflexivity.
  - intros H. destruct (H JNull) as (res & E). discriminate E.
Qed.


(** C10.  A tracked path that is present but holds a falsy value (the empty
    string in particular) yields the sentinel ["N/A"], not the value, and a
    Lighthouse metric in that case is stored as zero. *)
Theorem extract_falsy_is_sentinel :
  forall data res m v,
    outcome (extract data) = inr res ->
    resolves data (tracked_path m) v ->
    truthy v = false ->
    extracted m res = JStr "N/A" /\
    (v = JStr "" -> extracted m res <> JStr "") /\
    parseMetricValue_any (extracted m res) = ret Num.zero /\
    forall targetUrl strategy rec x,
      outcome (normalise res targetUrl strategy) = inr rec ->
      measurement m rec = Some x ->
      x = Num.zero.
Proof.
  intros data res m v Hex Hres Hfalsy.
  assert (Hnull : data <> JNull) by (intros ->; discriminate).
  destruct (extract_value data Hnull) as (res' & E & _ & _ & Hm).
  rewrite E in Hex. simpl in Hex. injection Hex as <-.
  assert (HNA : extracted m res' = JStr "N/A").
  { rewrite Hm, (resolves_fold _ _ _ Hres). simpl. now rewrite Hfalsy. }
  split; [assumption|]. split; [|split].
  - intros _. rewrite HNA. discriminate.
  - rewrite HNA. reflexivity.
  - intros targetUrl strategy rec x Hn Hx.
    pose proof (normalise_measurement _ _ _ _ Hn m x Hx) as H.
    rewrite HNA in H. simpl in H. now inversion H.
Qed.

Lemma extract_falsy_is_sentinel_witness :
  outcome (extract Samples.example_document) = inr Samples.example_result /\
  resolves Samples.example_document (tracked_path lh_si) (JStr "") /\
  truthy (JStr "") = false /\
  extracted lh_si Samples.example_result = JStr "N/A" /\
  (outcome (normalise Samples.example_result (JStr "https://example.com/") (JStr "desktop"))
   = inr Samples.example_record ->
   speed_index Samples.example_record = Num.zero).
Proof.
  assert (Hres : resolves Samples.example_document (tracked_path lh_si) (JStr ""))
    by (apply fold_resolves; reflexivity).
  split; [reflexivity|]. split; [exact Hres|]. split; [reflexivity|].
  destruct (extract_falsy_is_sentinel Samples.example_document Samples.example_result
              lh_si (JStr "") eq_refl Hres eq_refl) as (HNA & _ & _ & Hzero).
  split; [exact HNA|].
  intros Hn. apply (Hzero _ _ _ _ Hn). reflexivity.
Defined.


(** *** The request handler *)

Lemma read_request_pure w : trace (read_request w) = [].
Proof.
  unfold read_request. destruct (request_json w) as [[]|]; reflexivity.
Qed.

(** What [read_request] returns on a body other than [null]. *)
Lemma read_request_body w body :
  request_json w = Some body -> body <> JNull ->
  read_request w =
    ([], inr (get body "url",
              match get body "strategy" with Some s => s | None => JStr "desktop" end)).
Proof.
  intros H Hnull. unfold read_request. rewrite H.
  destruct body; try contradiction; reflexivity.
Qed.

(** The handler unfolded at the result of [read_request]. *)
Lemma POST_unfold w :
  POST w =
    try_catch
      (bind (read_request w) (fun req =>
         let (targetUrl, strategy) := req : option json * json in
         match targetUrl with
         | Some u =>
             if truthy u then
               bind (analyse w u strategy) (fun a =>
                 let (res, rec) := a : result * dbRecord in
                 bind (save w rec res) (fun res' =>
                   ret (json_response 200 (ResultBody res'))))
             else ret url_required
         | None => ret url_required
         end))
      (fun _ =>
         bind (emit (ConsoleError "PageSpeed Insights API error:")) (fun _ =>
           ret generic_failure)).
Proof. reflexivity. Qed.

Lemma POST_read_fails w e :
  outcome (read_request w) = inl e ->
  POST w = ([ConsoleError "PageSpeed Insights API error:"], inr generic_failure).
Proof.
  rewrite POST_unfold. pose proof (read_request_pure w) as Ht.
  destruct (read_request w) as [t [e'|v]]; simpl in *; [|discriminate].
  intros _. subst t. reflexivity.
Qed.

Lemma POST_no_url w t strategy :
  outcome (read_request w) = inr (t, strategy) ->
  truthy_opt t = false ->
  POST w = ([], inr url_required).
Proof.
  rewrite POST_unfold. pose proof (read_request_pure w) as Ht.
  destruct (read_request w) as [tr [e'|v]]; simpl in *; [discriminate|].
  intros [= ->] Hf. subst tr.
  destruct t as [u|]; simpl in *; [rewrite Hf|]; reflexivity.
Qed.

(** The store insert never throws out of [save], and logs one attempt. *)
Lemma save_result w rec res :
  exists t res',
    save w rec res = (Insert rec :: t, inr res') /\
    List.filter is_Insert t = [] /\
    List.filter is_Fetch t = [] /\
    id res' = id res /\
    cruxMetrics res' = cruxMetrics res /\
    lighthouseMetrics res' = lighthouseMetrics res /\
    databaseId res' =
      match store w rec with
      | InsertRejects => databaseId res
      | InsertResolves data error =>
          if truthy error then databaseId res
          else if truthy data && truthy_opt (first_item data)
               then opt_get (first_item data) "id"
               else databaseId res
      end.
Proof.
  unfold save, insert. simpl.
  destruct (store w rec) as [|data error]; simpl.
  - do 2 eexists. repeat split; reflexivity.
  - destruct (truthy error); simpl.
    + do 2 eexists. repeat split; reflexivity.
    + destruct (truthy data && truthy_opt (first_item data)); simpl;
        do 2 eexists; repeat split; reflexivity.
Qed.

Lemma fetch_trace w q : exists o, fetch w q = ([Fetch q], o).
Proof.
  unfold fetch. simpl. destruct (upstream w q); simpl; now eexists.
Qed.

(** A completed analysis issued one fetch and nothing else, and its result
    carries no identifier yet. *)
Lemma analyse_success w u strategy res rec :
  outcome (analyse w u strategy) = inr (res, rec) ->
  exists q, analyse w u strategy = ([Fetch q], inr (res, rec)) /\ databaseId res = None.
Proof.
  unfold analyse. destruct strategy; simpl; try discriminate.
  set (q := {| q_url := u; q_strategy := Some (Str.toUpperCase s); q_key := key_param (api_key w) |}).
  unfold fetch. simpl. destruct (upstream w q) as [|resp]; simpl; [discriminate|].
  destruct (ok resp); simpl; [|discriminate].
  unfold response_json. destruct (json_body resp) as [data|]; simpl; [|discriminate].
  assert (Hd : data = JNull \/ data <> JNull)
    by (destruct data; [left; reflexivity|right; discriminate..]).
  destruct Hd as [->|Hd]; [simpl; discriminate|].
  destruct (extract_value data Hd) as (res0 & E & _ & Hdb & _).
  rewrite E. simpl.
  pose proof (normalise_pure res0 u (JStr s)) as Hp.
  destruct (normalise res0 u (JStr s)) as [t [e|rec0]]; simpl in *; [discriminate|].
  subst t. intros [= <- <-]. exists q. split; [reflexivity|assumption].
Qed.

Lemma analyse_failure w u strategy e :
  outcome (analyse w u strategy) = inl e ->
  List.filter is_Insert (trace (analyse w u strategy)) = [].
Proof.
  intros _. unfold analyse. destruct strategy; simpl; try reflexivity.
  unfold fetch. simpl.
  match goal with |- context [upstream w ?q] => destruct (upstream w q) as [|resp] end;
    simpl; [reflexivity|].
  destruct (ok resp); simpl; [|reflexivity].
  unfold response_json. destruct (json_body resp) as [data|]; simpl; [|reflexivity].
  pose proof (extract_pure data) as He.
  destruct (extract data) as [t [e'|res0]]; simpl in *; subst t; [reflexivity|].
  pose proof (normalise_pure res0 u (JStr s)) as Hp.
  destruct (normalise res0 u (JStr s)) as [t [e'|rec0]]; simpl in *; subst t; reflexivity.
Qed.

Lemma POST_analysed w u strategy res rec :
  outcome (read_request w) = inr (Some u, strategy) ->
  truthy u = true ->
  outcome (analyse w u strategy) = inr (res, rec) ->
  exists q t res',
    POST w = (Fetch q :: Insert rec :: t, inr (json_response 200 (ResultBody res'))) /\
    save w rec res = (Insert rec :: t, inr res') /\
    List.filter is_Insert t = [] /\ List.filter is_Fetch t = [].
Proof.
  intros Hr Hu Ha. rewrite POST_unfold. pose proof (read_request_pure w) as Ht.
  destruct (read_request w) as [tr [e'|v]]; simpl in *; [discriminate|].
  injection Hr as ->. subst tr. rewrite Hu.
  destruct (analyse_success _ _ _ _ _ Ha) as (q & Ea & _). rewrite Ea.
  destruct (save_result w rec res) as (t & res' & Es & Hi & Hf & _).
  exists q, t, res'. split; [|split; [exact Es|split; assumption]].
  simpl. rewrite Es. simpl. now rewrite List.app_nil_r.
Qed.

Lemma POST_analysis_fails w u strategy e :
  outcome (read_request w) = inr (Some u, strategy) ->
  truthy u = true ->
  outcome (analyse w u strategy) = inl e ->
  outcome (POST w) = inr generic_failure /\
  List.filter is_Insert (trace (POST w)) = [].
Proof.
  intros Hr Hu Ha. rewrite POST_unfold. pose proof (read_request_pure w) as Ht.
  destruct (read_request w) as [tr [e'|v]]; simpl in *; [discriminate|].
  injection Hr as ->. subst tr. rewrite Hu.
  pose proof (analyse_failure _ _ _ _ Ha) as Hins.
  destruct (analyse w u strategy) as [ta [ea|a]]; simpl in *; [|discriminate].
  split; [reflexivity|].
  rewrite List.filter_app, Hins. reflexivity.
Qed.

(** C9, as the code has it.  A request whose body (any JSON value but
    [null]) has a missing or
    falsy [url] is answered 400 [URL is required] by both endpoints, and
    nothing was done before the answer: no fetch, no insert, no log. *)
Theorem POST_url_required :
  forall w body,
    request_json w = Some body ->
    body <> JNull ->
    truthy_opt (get body "url") = false ->
    POST w = ([], inr (json_response 400 (ErrorBody "URL is required"))) /\
    POST_plain w = ([], inr (json_response 400 (ErrorBody "URL is required"))).
Proof.
  intros w body Hb Hnull Hurl. split.
  - eapply POST_no_url; [|exact Hurl].
    now rewrite (read_request_body w body Hb Hnull).
  - unfold POST_plain. rewrite Hb.
    destruct body; try contradiction; simpl in *;
      try reflexivity.
    destruct (lookup fields "url") as [u|]; simpl in *; [rewrite Hurl|]; reflexivity.
Qed.

Lemma POST_url_required_witness :
  request_json Samples.w_empty_url = Some (JObj [("url", JStr "")]) /\
  JObj [("url", JStr "")] <> JNull /\
  truthy_opt (get (JObj [("url", JStr "")]) "url") = false /\
  POST Samples.w_empty_url = ([], inr (json_response 400 (ErrorBody "URL is required"))) /\
  POST_plain Samples.w_empty_url
  = ([], inr (json_response 400 (ErrorBody "URL is required"))).
Proof.
  split; [reflexivity|]. split; [discriminate|]. split; [reflexivity|].
  apply (POST_url_required Samples.w_empty_url (JObj [("url", JStr "")])).
  - reflexivity.
  - discriminate.
  - reflexivity.
Defined.

(** C9 as stated fails on the body [null], which has no url: destructuring it
    throws, and both endpoints answer 500, not 400. *)
Lemma POST_null_body :
  request_json Samples.w_null_body = Some JNull /\
  POST Samples.w_null_body
  = ([ConsoleError "PageSpeed Insights API error:"], inr generic_failure) /\
  POST_plain Samples.w_null_body
  = ([ConsoleError "PageSpeed Insights API error:"], inr generic_failure) /\
  ~ (forall w body,
        request_json w = Some body -> truthy_opt (opt_get (Some body) "url") = false ->
        outcome (POST w) = inr url_required).
Proof.
  split; [reflexivity|]. split; [reflexivity|]. split; [reflexivity|].
  intros H. specialize (H Samples.w_null_body JNull eq_refl eq_refl). discriminate H.
Qed.


(** C3, as the code has it.  Once the analysis of a request is complete,
    whatever the store does, the endpoint answers 200 with the extracted
    metrics, after one insert attempt.  When the insert throws or reports an
    error the answer has no [databaseId]; [databaseId] is present exactly
    when the insert reported no error and returned the inserted row with an
    identifier, and is then that identifier. *)
Theorem POST_survives_store_failure :
  forall w u strategy res rec,
    outcome (read_request w) = inr (Some u, strategy) ->
    truthy u = true ->
    outcome (analyse w u strategy) = inr (res, rec) ->
    exists res',
      outcome (POST w) = inr (json_response 200 (ResultBody res')) /\
      List.filter is_Insert (trace (POST w)) = [Insert rec] /\
      id res' = id res /\
      cruxMetrics res' = cruxMetrics res /\
      lighthouseMetrics res' = lighthouseMetrics res /\
      (store w rec = InsertRejects -> databaseId res' = None) /\
      (forall data error,
          store w rec = InsertResolves data error -> truthy error = true ->
          databaseId res' = None) /\
      (forall i, databaseId res' = Some i <-> stored_with_id (store w rec) i).
Proof.
  intros w u strategy res rec Hr Hu Ha.
  destruct (POST_analysed _ _ _ _ _ Hr Hu Ha) as (q & t & res' & EP & ES & Hi & Hf).
  destruct (analyse_success _ _ _ _ _ Ha) as (q' & _ & Hdb0).
  destruct (save_result w rec res) as (t2 & res2 & ES2 & _ & _ & Hid & Hc & Hl & Hdb).
  rewrite ES in ES2. injection ES2 as <- <-.
  exists res'. rewrite EP. simpl. rewrite Hi.
  repeat split; try assumption.
  - intros Hs. rewrite Hdb, Hs. assumption.
  - intros data error Hs He. rewrite Hdb, Hs, He. assumption.
  - intros H. rewrite Hdb in H.
    destruct (store w rec) as [|data error]; [rewrite Hdb0 in H; discriminate|].
    destruct (truthy error) eqn:He; [rewrite Hdb0 in H; discriminate|].
    destruct (truthy data && truthy_opt (first_item data)) eqn:Hd;
      [|rewrite Hdb0 in H; discriminate].
    apply andb_true_iff in Hd as [_ Hrow].
    destruct (first_item data) as [row|] eqn:Hfi; [|discriminate].
    simpl in Hrow. exists data, error, row. repeat split; try assumption.
    destruct row; simpl in *; try discriminate; assumption.
  - intros (data & error & row & Hs & He & Hfi & Hrow & Hget).
    rewrite Hdb, Hs, He, Hfi. simpl. rewrite Hrow.
    assert (Hd : truthy data = true).
    { destruct data as [| | |str| |]; simpl in *; try discriminate; try reflexivity.
      destruct str; [discriminate|reflexivity]. }
    rewrite Hd. simpl. destruct row; simpl in *; try discriminate; assumption.
Qed.

Lemma POST_survives_store_failure_witness :
  outcome (read_request Samples.w_store_down)
  = inr (Some (JStr "https://example.com/"), JStr "desktop") /\
  truthy (JStr "https://example.com/") = true /\
  outcome (analyse Samples.w_store_down (JStr "https://example.com/") (JStr "desktop"))
  = inr (Samples.example_result, Samples.example_record) /\
  exists res',
    outcome (POST Samples.w_store_down) = inr (json_response 200 (ResultBody res')) /\
    lighthouseMetrics res' = lighthouseMetrics Samples.example_result /\
    databaseId res' = None.
Proof.
  split; [reflexivity|]. split; [reflexivity|]. split; [reflexivity|].
  destruct (POST_survives_store_failure Samples.w_store_down
              (JStr "https://example.com/") (JStr "desktop")
              Samples.example_result Samples.example_record eq_refl eq_refl eq_refl)
    as (res' & HP & _ & _ & _ & Hl & Hrej & _).
  exists res'. split; [exact HP|]. split; [exact Hl|]. apply Hrej. reflexivity.
Defined.

(** C3 as stated fails when the insert reports no error and returns no row:
    the success is logged and the answer has no [databaseId]. *)
Lemma POST_saved_without_databaseId :
  insert_succeeded (store Samples.w_saved_no_row Samples.example_record) /\
  POST Samples.w_saved_no_row
  = ([Fetch {| q_url := JStr "https://example.com/"; q_strategy := Some "DESKTOP";
               q_key := None |};
      Insert Samples.example_record;
      ConsoleLog "Successfully saved to database:"],
     inr (json_response 200 (ResultBody Samples.example_result))) /\
  databaseId Samples.example_result = None /\
  ~ (forall w rec res',
        outcome (POST w) = inr (json_response 200 (ResultBody res')) ->
        List.filter is_Insert (trace (POST w)) = [Insert rec] ->
        insert_succeeded (store w rec) -> databaseId res' <> None).
Proof.
  assert (Hs : insert_succeeded (store Samples.w_saved_no_row Samples.example_record)).
  { exists (JArr []), JNull. split; reflexivity. }
  split; [exact Hs|]. split; [reflexivity|]. split; [reflexivity|].
  intros H.
  apply (H Samples.w_saved_no_row Samples.example_record Samples.example_result);
    [reflexivity|reflexivity|exact Hs|reflexivity].
Qed.



(** The four ways a request ends. *)
Lemma POST_cases w :
  (exists e, outcome (read_request w) = inl e /\
             outcome (POST w) = inr generic_failure) \/
  (exists t strategy,
      outcome (read_request w) = inr (t, strategy) /\ truthy_opt t = false /\
      outcome (POST w) = inr url_required) \/
  (exists u strategy e,
      outcome (read_request w) = inr (Some u, strategy) /\ truthy u = true /\
      outcome (analyse w u strategy) = inl e /\
      outcome (POST w) = inr generic_failure) \/
  (exists u strategy res rec res',
      outcome (read_request w) = inr (Some u, strategy) /\ truthy u = true /\
      outcome (analyse w u strategy) = inr (res, rec) /\
      outcome (POST w) = inr (json_response 200 (ResultBody res'))).
Proof.
  destruct (outcome (read_request w)) as [e|[t strategy]] eqn:Hr.
  - left. exists e. split; [reflexivity|].
    now rewrite (POST_read_fails w e Hr).
  - right. destruct (truthy_opt t) eqn:Ht.
    + right. destruct t as [u|]; [|discriminate]. simpl in Ht.
      destruct (outcome (analyse w u strategy)) as [e|[res rec]] eqn:Ha.
      * left. exists u, strategy, e. repeat split; try assumption.
        apply (POST_analysis_fails w u strategy e Hr Ht Ha).
      * right. destruct (POST_analysed w u strategy res rec Hr Ht Ha)
          as (q & tr & res' & EP & _).
        exists u, strategy, res, rec, res'. repeat split; try assumption.
        now rewrite EP.
    + left. exists t, strategy. repeat split; try assumption.
      now rewrite (POST_no_url w t strategy Hr Ht).
Qed.

Lemma analyse_upstream_fails w u s :
  upstream_fails (upstream w {| q_url := u; q_strategy := Some (Str.toUpperCase s);
                                q_key := key_param (api_key w) |}) ->
  exists e, outcome (analyse w u (JStr s)) = inl e.
Proof.
  unfold analyse, fetch. simpl.
  destruct (upstream w _) as [|resp]; simpl; intros H.
  - now eexists.
  - rewrite H. simpl. now eexists.
Qed.

(** C4, as the code has it.  The endpoint always answers, with one of three
    responses: 200 with the metrics, 400 [URL is required], or 500 [Failed
    to fetch PageSpeed data] without any metric.  A rejected fetch or a
    non-success upstream status gives the 500 response, and no insert is
    attempted.  The 500 response is given exactly when reading the request
    throws or the analysis of a request with a url throws; the 400 response
    exactly when the url is missing or falsy. *)
Theorem POST_failure_cases :
  (forall w, exists resp,
      outcome (POST w) = inr resp /\
      (resp = url_required \/ resp = generic_failure \/
       exists res, resp = json_response 200 (ResultBody res))) /\
  (forall w u s,
      outcome (read_request w) = inr (Some u, JStr s) ->
      truthy u = true ->
      upstream_fails (upstream w {| q_url := u; q_strategy := Some (Str.toUpperCase s);
                                    q_key := key_param (api_key w) |}) ->
      outcome (POST w) = inr generic_failure /\
      List.filter is_Insert (trace (POST w)) = []) /\
  (forall w,
      outcome (POST w) = inr generic_failure <->
      (exists e, outcome (read_request w) = inl e) \/
      (exists u strategy e,
          outcome (read_request w) = inr (Some u, strategy) /\ truthy u = true /\
          outcome (analyse w u strategy) = inl e)) /\
  (forall w,
      outcome (POST w) = inr url_required <->
      exists t strategy,
        outcome (read_request w) = inr (t, strategy) /\ truthy_opt t = false).
Proof.
  split; [|split; [|split]].
  - intros w.
    destruct (POST_cases w) as [(e & _ & H)|[(t & st & _ & _ & H)|
      [(u & st & e & _ & _ & _ & H)|(u & st & res & rec & res' & _ & _ & _ & H)]]];
      eexists; (split; [exact H|]); eauto.
  - intros w u s Hr Hu Hf.
    destruct (analyse_upstream_fails w u s Hf) as (e & Ha).
    apply (POST_analysis_fails w u (JStr s) e Hr Hu Ha).
  - intros w. split.
    + intros HP.
      destruct (POST_cases w) as [(e & Hr & H)|[(t & st & _ & _ & H)|
        [(u & st & e & Hr & Hu & Ha & H)|(u & st & res & rec & res' & _ & _ & _ & H)]]].
      * left. now exists e.
      * rewrite H in HP. discriminate.
      * right. now exists u, st, e.
      * rewrite H in HP. discriminate.
    + intros [(e & Hr)|(u & st & e & Hr & Hu & Ha)].
      * now rewrite (POST_read_fails w e Hr).
      * apply (POST_analysis_fails w u st e Hr Hu Ha).
  - intros w. split.
    + intros HP.
      destruct (POST_cases w) as [(e & Hr & H)|[(t & st & Hr & Ht & H)|
        [(u & st & e & Hr & Hu & Ha & H)|(u & st & res & rec & res' & _ & _ & _ & H)]]].
      * rewrite H in HP. discriminate.
      * now exists t, st.
      * rewrite H in HP. discriminate.
      * rewrite H in HP. discriminate.
    + intros (t & st & Hr & Ht). now rewrite (POST_no_url w t st Hr Ht).
Qed.

Lemma POST_failure_cases_witness :
  outcome (read_request Samples.w_upstream_500)
  = inr (Some (JStr "https://example.com/"), JStr "desktop") /\
  truthy (JStr "https://example.com/") = true /\
  upstream_fails
    (upstream Samples.w_upstream_500
       {| q_url := JStr "https://example.com/"; q_strategy := Some (Str.toUpperCase "desktop");
          q_key := key_param (api_key Samples.w_upstream_500) |}) /\
  outcome (POST Samples.w_upstream_500)
  = inr (json_response 500 (ErrorBody "Failed to fetch PageSpeed data")) /\
  List.filter is_Insert (trace (POST Samples.w_upstream_500)) = [].
Proof.
  destruct POST_failure_cases as (_ & Hup & _ & _).
  split; [reflexivity|]. split; [reflexivity|]. split; [reflexivity|].
  apply (Hup Samples.w_upstream_500 (JStr "https://example.com/") "desktop"); reflexivity.
Defined.


(** C4 as stated fails on requests that fail although no upstream call
    fails: an empty url is
    answered 400, and an unreadable request body, a strategy that is not a
    string and an upstream body that is not JSON are answered 500; in the
    first three no fetch is issued at all. *)
Lemma POST_fails_without_upstream_failure :
  ~ (forall w resp,
        outcome (POST w) = inr resp -> http_status resp <> 200 ->
        exists q, upstream_fails (upstream w q)) /\
  POST Samples.w_empty_url = ([], inr url_required) /\
  POST Samples.w_bad_request =
    ([ConsoleError "PageSpeed Insights API error:"], inr generic_failure) /\
  POST Samples.w_bad_strategy =
    ([ConsoleError "PageSpeed Insights API error:"], inr generic_failure) /\
  outcome (POST Samples.w_upstream_not_json) = inr generic_failure /\
  (forall q, ~ upstream_fails (upstream Samples.w_upstream_not_json q)).
Proof.
  split; [|repeat split; try reflexivity].
  - intros H.
    destruct (H Samples.w_empty_url url_required eq_refl) as (q & Hq).
    + simpl. lia.
    + simpl in Hq. discriminate.
  - intros q Hq. simpl in Hq. discriminate.
Qed.

End RouteFacts.

(** ** The history view *)

Module OrderFacts.

Import NumFacts.

Lemma dec_ltb_spec a b :
  Num.dec_ltb a b = true <->
  Num.mant a * Num.pow10 (Num.scale b) < Num.mant b * Num.pow10 (Num.scale a).
Proof.
  unfold Num.dec_ltb, Num.dec_compare.
  destruct (Z.compare_spec (Num.mant a * Num.pow10 (Num.scale b))
                           (Num.mant b * Num.pow10 (Num.scale a)));
    split; intros; try discriminate; try reflexivity; lia.
Qed.

Lemma dec_ltb_false a b :
  Num.dec_ltb a b = false <->
  Num.mant b * Num.pow10 (Num.scale a) <= Num.mant a * Num.pow10 (Num.scale b).
Proof.
  pose proof (dec_ltb_spec a b) as H.
  destruct (Num.dec_ltb a b); split; intros; try discriminate; try reflexivity.
  - assert (true = true) as E by reflexivity. apply H in E. lia.
  - destruct H as [_ H]. lia.
Qed.

Lemma dec_le_trans a b c :
  Num.dec_ltb b a = false -> Num.dec_ltb c b = false -> Num.dec_ltb c a = false.
Proof.
  rewrite !dec_ltb_false.
  pose proof (pow10_pos (Num.scale a)). pose proof (pow10_pos (Num.scale b)).
  pose proof (pow10_pos (Num.scale c)).
  set (pa := Num.pow10 (Num.scale a)) in *. set (pb := Num.pow10 (Num.scale b)) in *.
  set (pc := Num.pow10 (Num.scale c)) in *.
  intros Hab Hbc.
  apply (Z.mul_le_mono_pos_r _ _ pb); [assumption|].
  apply Z.le_trans with (Num.mant b * pa * pc).
  - replace (Num.mant a * pc * pb) with (Num.mant a * pb * pc) by ring.
    apply Z.mul_le_mono_nonneg_r; lia.
  - replace (Num.mant b * pa * pc) with (Num.mant b * pc * pa) by ring.
    replace (Num.mant c * pa * pb) with (Num.mant c * pb * pa) by ring.
    apply Z.mul_le_mono_nonneg_r; lia.
Qed.

Lemma lt_asym x y : Num.lt x y = true -> Num.lt y x = false.
Proof.
  destruct x as [|[]|a], y as [|[]|b]; simpl; try discriminate; try reflexivity.
  rewrite dec_ltb_spec, dec_ltb_false. lia.
Qed.

(** On numbers other than NaN, "not less than" is transitive. *)
Lemma lt_false_trans x y z :
  Num.isNaN x = false -> Num.isNaN y = false -> Num.isNaN z = false ->
  Num.lt y x = false -> Num.lt z y = false -> Num.lt z x = false.
Proof.
  destruct x as [|[]|a], y as [|[]|b], z as [|[]|c]; simpl;
    try discriminate; try reflexivity.
  intros _ _ _. apply dec_le_trans.
Qed.

Lemma time_lt_asym a b : time_lt a b = true -> time_lt b a = false.
Proof.
  destruct a, b; simpl; try discriminate; try reflexivity.
  intros H. apply Z.ltb_lt in H. apply Z.ltb_ge. lia.
Qed.

Lemma time_lt_false_trans a b c :
  a <> None -> b <> None -> c <> None ->
  time_lt b a = false -> time_lt c b = false -> time_lt c a = false.
Proof.
  destruct a, b, c; simpl; try congruence.
  rewrite !Z.ltb_ge. lia.
Qed.

Section History.

Variable Date_parse : string -> time.

Lemma numeric_key_notNaN field r : Num.isNaN (numeric_key field r) = false.
Proof.
  unfold numeric_key. destruct (numeric_field field r) as [x|]; [|reflexivity].
  destruct (Num.truthy x) eqn:E; [|reflexivity].
  destruct x; [discriminate|reflexivity..].
Qed.

Lemma value_lt_asym field a b :
  value_lt Date_parse field a b = true -> value_lt Date_parse field b a = false.
Proof.
  destruct field; simpl; auto using time_lt_asym, lt_asym.
Qed.

Lemma value_lt_false_trans field a b c :
  (field = f_created_at ->
   timestamp_ok Date_parse a /\ timestamp_ok Date_parse b /\ timestamp_ok Date_parse c) ->
  value_lt Date_parse field b a = false ->
  value_lt Date_parse field c b = false ->
  value_lt Date_parse field c a = false.
Proof.
  destruct field; simpl; intros H;
    try (apply lt_false_trans; apply numeric_key_notNaN).
  destruct (H eq_refl) as (Ha & Hb & Hc). now apply time_lt_false_trans.
Qed.

(** The comparator of [sortResults] puts [a] before [b] exactly when the
    two are in order. *)
Lemma compare_results_in_order field direction a b :
  precedes (compare_results Date_parse field direction) a b <->
  in_order Date_parse field direction a b.
Proof.
  unfold precedes, SortCompare, compare_results, in_order.
  pose proof (value_lt_asym field a b) as Hab.
  destruct direction;
    destruct (value_lt Date_parse field a b) eqn:E1;
    destruct (value_lt Date_parse field b a) eqn:E2;
    simpl; split; intros; try reflexivity; try lia; try discriminate;
    try (specialize (Hab eq_refl); discriminate).
Qed.

Lemma in_order_total field direction a b :
  in_order Date_parse field direction a b \/ in_order Date_parse field direction b a.
Proof.
  unfold in_order. pose proof (value_lt_asym field a b) as Hab.
  destruct direction; destruct (value_lt Date_parse field a b); auto.
Qed.

Lemma in_order_trans field direction a b c :
  good_for Date_parse field a -> good_for Date_parse field b ->
  good_for Date_parse field c ->
  in_order Date_parse field direction a b ->
  in_order Date_parse field direction b c ->
  in_order Date_parse field direction a c.
Proof.
  unfold in_order, good_for. intros Ha Hb Hc.
  destruct direction; intros H1 H2.
  - apply (value_lt_false_trans field a b c); auto.
  - apply (value_lt_false_trans field c b a); auto.
Qed.

Lemma StronglySorted_iff {A} (R S : A -> A -> Prop) l :
  (forall x y, R x y -> S x y) -> StronglySorted R l -> StronglySorted S l.
Proof.
  intros HRS. induction 1; constructor; auto.
  eapply Forall_impl; [|eassumption]. auto.
Qed.

Lemma sortResults_StronglySorted data field direction :
  comparable Date_parse field data ->
  StronglySorted (in_order Date_parse field direction)
                 (sortResults Date_parse data field direction).
Proof.
  intros Hc. unfold sortResults.
  apply (StronglySorted_iff (precedes (compare_results Date_parse field direction))).
  { intros x y. apply compare_results_in_order. }
  apply (Array_sort_StronglySorted _ (good_for Date_parse field)).
  - intros x y _ _.
    destruct (in_order_total field direction x y); [left|right];
      now apply compare_results_in_order.
  - intros x y z Hx Hy Hz H1 H2. apply compare_results_in_order.
    apply compare_results_in_order in H1, H2.
    now apply (in_order_trans field direction x y z).
  - exact Hc.
Qed.

Lemma sortResults_unchanged l field direction :
  Sorted (in_order Date_parse field direction) l ->
  sortResults Date_parse l field direction = l.
Proof.
  intros H. apply Array_sort_sorted_id.
  induction H as [|x l Hs IH Hhd]; constructor; auto.
  destruct Hhd; constructor. now apply compare_results_in_order.
Qed.

End History.

(** C5, as the code has it.  For each of the six sort fields and both
    directions, the sequence produced by [sortResults] is a rearrangement of
    the collection in which no record stands before one that is strictly
    less (ascending) or strictly greater (descending) under the comparison of
    the field, provided that, when the field is [created_at], every creation
    time present parses as a timestamp; for the five numeric fields this
    holds for every collection.  Sorting the produced sequence again leaves
    it unchanged, and so is every sequence whose neighbours are in order. *)
Theorem sortResults_monotonic :
  (forall Date_parse data field direction,
      comparable Date_parse field data ->
      Permutation data (sortResults Date_parse data field direction) /\
      StronglySorted (in_order Date_parse field direction)
                     (sortResults Date_parse data field direction) /\
      sortResults Date_parse (sortResults Date_parse data field direction) field direction
      = sortResults Date_parse data field direction) /\
  (forall Date_parse data field,
      field <> f_created_at -> comparable Date_parse field data) /\
  (forall Date_parse l field direction,
      Sorted (in_order Date_parse field direction) l ->
      sortResults Date_parse l field direction = l).
Proof.
  split; [|split].
  - intros Date_parse data field direction Hc.
    pose proof (sortResults_StronglySorted Date_parse data field direction Hc) as Hs.
    split; [apply Array_sort_Permutation|]. split; [exact Hs|].
    apply sortResults_unchanged. now apply StronglySorted_Sorted.
  - intros Date_parse data field Hf. apply Forall_forall. intros r _ E. contradiction.
  - intros. now apply sortResults_unchanged.
Qed.

Lemma sortResults_monotonic_witness :
  comparable iso_Date_parse f_created_at
    [HistorySamples.jan2; HistorySamples.jan1; HistorySamples.jan3] /\
  sortResults iso_Date_parse
    [HistorySamples.jan2; HistorySamples.jan1; HistorySamples.jan3] f_created_at desc
  = [HistorySamples.jan3; HistorySamples.jan2; HistorySamples.jan1] /\
  StronglySorted (in_order iso_Date_parse f_created_at desc)
    (sortResults iso_Date_parse
       [HistorySamples.jan2; HistorySamples.jan1; HistorySamples.jan3] f_created_at desc).
Proof.
  assert (Hc : comparable iso_Date_parse f_created_at
                 [HistorySamples.jan2; HistorySamples.jan1; HistorySamples.jan3]).
  { repeat constructor; intros _; discriminate. }
  split; [exact Hc|]. split; [reflexivity|].
  destruct sortResults_monotonic as (Hsort & _ & _).
  apply (Hsort iso_Date_parse _ f_created_at desc Hc).
Defined.


(** C5 as stated fails with a creation time that is not a date between
    two that are: the records stay as they were, the record of 2 January stands before the one
    of 1 January in the ascending order. *)
Lemma sortResults_not_monotonic :
  sortResults iso_Date_parse
    [HistorySamples.jan2; HistorySamples.garbled; HistorySamples.jan1] f_created_at asc
  = [HistorySamples.jan2; HistorySamples.garbled; HistorySamples.jan1] /\
  ~ StronglySorted (in_order iso_Date_parse f_created_at asc)
      (sortResults iso_Date_parse
         [HistorySamples.jan2; HistorySamples.garbled; HistorySamples.jan1] f_created_at asc).
Proof.
  assert (E : sortResults iso_Date_parse
    [HistorySamples.jan2; HistorySamples.garbled; HistorySamples.jan1] f_created_at asc
    = [HistorySamples.jan2; HistorySamples.garbled; HistorySamples.jan1]) by (vm_compute; reflexivity).
  split; [exact E|]. rewrite E. intros H.
  inversion H as [|? ? _ Hall]; subst.
  inversion Hall as [|? ? _ Hall']; subst.
  inversion Hall' as [|? ? Hbad _]; subst.
  vm_compute in Hbad. discriminate.
Qed.

Section Filters.

Variable URL_hostname : string -> option string.

Lemma matches_website_hosted w r :
  matches_website URL_hostname w r = hosted URL_hostname w r.
Proof.
  unfold matches_website, hosted, host_of.
  destruct (url r) as [u|]; [|reflexivity].
  destruct (Str.is_empty u); reflexivity.
Qed.

Lemma filter_filter {A} (p q : A -> bool) l :
  List.filter q (List.filter p l) = List.filter (fun x => p x && q x) l.
Proof.
  induction l as [|x l IH]; simpl; [reflexivity|].
  destruct (p x); simpl; [destruct (q x)|]; now rewrite IH.
Qed.

Lemma filter_true {A} (l : list A) : List.filter (fun _ => true) l = l.
Proof. induction l; simpl; congruence. Qed.

Lemma filterResults_kept results selectedWebsite strategyFilter :
  filterResults URL_hostname results selectedWebsite strategyFilter
  = List.filter (kept URL_hostname selectedWebsite strategyFilter) results.
Proof.
  unfold filterResults, kept, selected.
  assert (Hw : forall w, List.filter (matches_website URL_hostname w) results
                         = List.filter (hosted URL_hostname w) results).
  { intros w. apply List.filter_ext. intros r. apply matches_website_hosted. }
  destruct selectedWebsite as [w|]; [destruct (Str.is_empty w)|];
    destruct strategyFilter; rewrite ?Hw, ?filter_filter;
    try (symmetry; apply filter_true);
    try (apply List.filter_ext; intros r; simpl; now rewrite ?andb_true_r).
Qed.

Lemma hosted_spec d r :
  hosted URL_hostname d r = true <->
  exists u, url r = Some u /\ u <> "" /\ URL_hostname u = Some d.
Proof.
  unfold hosted, host_of. split.
  - destruct (url r) as [u|]; [|discriminate].
    destruct u as [|c u]; simpl; [discriminate|].
    destruct (URL_hostname (String c u)) as [h|] eqn:E; [|discriminate].
    intros H. apply String.eqb_eq in H. subst h.
    exists (String c u). repeat split; [discriminate|assumption].
  - intros (u & -> & Hu & E). destruct u; [contradiction|]. simpl.
    rewrite E. apply String.eqb_refl.
Qed.

Lemma has_strategy_spec label r :
  has_strategy label r = true <-> device_strategy r = Some label.
Proof.
  unfold has_strategy. destruct (device_strategy r) as [d|]; split; try discriminate.
  - intros H. apply String.eqb_eq in H. now subst.
  - intros [= ->]. apply String.eqb_refl.
Qed.

End Filters.

(** C7.  The filters of the history view keep, in their order, exactly the
    records of the selected domain and of the selected device class.  A
    record is of the domain [d] exactly when it has a non-empty url that
    parses and whose host name is the string [d]; a record without url, or
    whose url does not parse, is left out and raises nothing.  A record is of
    a device class exactly when its [device_strategy] is that label.  With no
    domain selected and the class [all] the collection is unchanged.  With
    [a.com] selected, [https://a.com/x] is kept and [https://www.a.com/y] is
    not. *)
Theorem filterResults_exact :
  (forall URL_hostname results d strategyFilter r,
      d <> "" ->
      (In r (filterResults URL_hostname results (Some d) all) <->
       In r results /\
       exists u, url r = Some u /\ u <> "" /\ URL_hostname u = Some d) /\
      filterResults URL_hostname results (Some d) strategyFilter
      = List.filter (kept URL_hostname (Some d) strategyFilter) results) /\
  (forall URL_hostname results r,
      (In r (filterResults URL_hostname results None desktop) <->
       In r results /\ device_strategy r = Some "desktop") /\
      (In r (filterResults URL_hostname results None mobile) <->
       In r results /\ device_strategy r = Some "mobile")) /\
  (forall URL_hostname results selectedWebsite strategyFilter,
      filterResults URL_hostname results selectedWebsite strategyFilter
      = List.filter (kept URL_hostname selectedWebsite strategyFilter) results) /\
  (forall URL_hostname results,
      filterResults URL_hostname results None all = results /\
      filterResults URL_hostname results (Some "") all = results) /\
  filterResults http_hostname [HistorySamples.jan1; HistorySamples.jan2] (Some "a.com") all
  = [HistorySamples.jan1].
Proof.
  split; [|split; [|split; [|split]]].
  - intros URL_hostname results d strategyFilter r Hd. split.
    + rewrite filterResults_kept, List.filter_In. unfold kept, selected.
      destruct d; [contradiction|]. simpl. rewrite andb_true_r, hosted_spec. reflexivity.
    + apply filterResults_kept.
  - intros URL_hostname results r.
    rewrite !filterResults_kept, !List.filter_In. unfold kept; simpl.
    rewrite !has_strategy_spec. tauto.
  - intros. apply filterResults_kept.
  - intros. split; reflexivity.
  - vm_compute. reflexivity.
Qed.

Lemma filterResults_exact_witness :
  "a.com" <> "" /\
  (In HistorySamples.jan1
      (filterResults http_hostname [HistorySamples.jan1; HistorySamples.jan2]
                     (Some "a.com") all) <->
   In HistorySamples.jan1 [HistorySamples.jan1; HistorySamples.jan2] /\
   exists u, url HistorySamples.jan1 = Some u /\ u <> "" /\
             http_hostname u = Some "a.com").
Proof.
  assert (Hne : "a.com" <> "") by discriminate.
  split; [exact Hne|].
  destruct filterResults_exact as (Hdom & _).
  apply (Hdom http_hostname [HistorySamples.jan1; HistorySamples.jan2] "a.com" all
              HistorySamples.jan1 Hne).
Defined.


End OrderFacts.

(** ** The website groups *)

Module GroupFacts.

Section Grouping.

Variable URL_hostname : string -> option string.
Variable Date_parse : string -> time.

Lemma hosted_true d r : hosted URL_hostname d r = true <-> host_of URL_hostname r = Some d.
Proof.
  unfold hosted. destruct (host_of URL_hostname r) as [h|]; split; try discriminate.
  - intros H. apply String.eqb_eq in H. now subst.
  - intros [= ->]. apply String.eqb_refl.
Qed.

Lemma hosted_false d r : host_of URL_hostname r <> Some d -> hosted URL_hostname d r = false.
Proof.
  intros H. destruct (hosted URL_hostname d r) eqn:E; [|reflexivity].
  apply hosted_true in E. contradiction.
Qed.

Lemma add_result_host r m :
  add_result URL_hostname m r =
    match host_of URL_hostname r with
    | Some d => push_result m d r
    | None => m
    end.
Proof.
  unfold add_result, host_of.
  destruct (url r) as [u|]; [|reflexivity].
  destruct (Str.is_empty u); reflexivity.
Qed.

Lemma push_result_keys m d r d' :
  In d' (List.map fst (push_result m d r)) <-> In d' (List.map fst m) \/ d' = d.
Proof.
  induction m as [|[k rs] m IH]; simpl.
  - intuition.
  - destruct (String.eqb k d) eqn:E; simpl.
    + apply String.eqb_eq in E. subst k. intuition.
    + rewrite IH. intuition.
Qed.

Lemma push_result_NoDup m d r :
  NoDup (List.map fst m) -> NoDup (List.map fst (push_result m d r)).
Proof.
  induction m as [|[k rs] m IH]; simpl; intros H.
  - repeat constructor. intros [].
  - inversion H as [|? ? Hk Hm]; subst.
    destruct (String.eqb k d) eqn:E; simpl.
    + now constructor.
    + constructor; [|now apply IH].
      rewrite push_result_keys. intros [Hin| ->]; [contradiction|].
      rewrite String.eqb_refl in E. discriminate.
Qed.

Lemma push_result_entries m d r d' rs' :
  NoDup (List.map fst m) ->
  In (d', rs') (push_result m d r) ->
  (d' <> d /\ In (d', rs') m) \/
  (d' = d /\ ((exists rs, In (d, rs) m /\ rs' = (rs ++ [r])%list) \/
              (~ In d (List.map fst m) /\ rs' = [r]))).
Proof.
  induction m as [|[k rs] m IH]; simpl; intros Hnd H.
  - destruct H as [[= <- <-]|[]]. right. split; [reflexivity|]. right. tauto.
  - inversion Hnd as [|? ? Hk Hm]; subst.
    destruct (String.eqb k d) eqn:E.
    + apply String.eqb_eq in E. subst k. destruct H as [[= <- <-]|H].
      * right. split; [reflexivity|]. left. exists rs. auto.
      * left. split; [|auto]. intros ->. apply Hk.
        change d with (fst (d, rs')). now apply List.in_map.
    + apply String.eqb_neq in E. destruct H as [[= <- <-]|H].
      * left. split; auto.
      * destruct (IH Hm H) as [[Hne Hin]|[-> [(rs0 & Hin & ->)|[Hnin ->]]]].
        -- left. auto.
        -- right. split; [reflexivity|]. left. exists rs0. auto.
        -- right. split; [reflexivity|]. right. split; [|reflexivity].
           intros [Hkd|Hin]; [contradiction|contradiction].
Qed.

Lemma filter_snoc {A} (p : A -> bool) l x :
  List.filter p (l ++ [x]) = (List.filter p l ++ if p x then [x] else [])%list.
Proof. rewrite List.filter_app. reflexivity. Qed.

Lemma filter_none {A} (p : A -> bool) l :
  (forall x, In x l -> p x = false) -> List.filter p l = [].
Proof.
  induction l as [|x l IH]; simpl; intros H; [reflexivity|].
  rewrite (H x (or_introl eq_refl)). apply IH. auto.
Qed.

(** One step of [results.forEach] keeps the description of [groupMap]. *)
Lemma add_result_groupMap seen m r :
  groupMap_of URL_hostname seen m ->
  groupMap_of URL_hostname (seen ++ [r]) (add_result URL_hostname m r).
Proof.
  intros (Hnd & Hent & Hcov). rewrite add_result_host.
  destruct (host_of URL_hostname r) as [d0|] eqn:Hr.
  - split; [now apply push_result_NoDup|]. split.
    + intros d rs Hin. rewrite filter_snoc.
      destruct (push_result_entries _ _ _ _ _ Hnd Hin)
        as [[Hne Hold]|[-> [(rs0 & Hold & ->)|[Hnew ->]]]].
      * destruct (Hent d rs Hold) as [-> Hnz].
        rewrite hosted_false by congruence. now rewrite List.app_nil_r.
      * destruct (Hent d0 rs0 Hold) as [-> Hnz].
        rewrite (proj2 (hosted_true d0 r) Hr). split; [reflexivity|].
        intros E. apply List.app_eq_nil in E as [_ E]. discriminate.
      * rewrite (proj2 (hosted_true d0 r) Hr).
        rewrite filter_none; [split; [reflexivity|discriminate]|].
        intros x Hx. apply hosted_false. intros Hx0.
        apply Hnew. apply (Hcov x d0 Hx Hx0).
    + intros x d Hx Hd. rewrite push_result_keys.
      apply List.in_app_or in Hx as [Hx|[<-|[]]].
      * left. apply (Hcov x d Hx Hd).
      * right. congruence.
  - split; [assumption|]. split.
    + intros d rs Hin. rewrite filter_snoc.
      rewrite hosted_false by congruence. rewrite List.app_nil_r. now apply Hent.
    + intros x d Hx Hd. apply List.in_app_or in Hx as [Hx|[<-|[]]].
      * apply (Hcov x d Hx Hd).
      * congruence.
Qed.

Lemma fold_groupMap results :
  forall seen m,
    groupMap_of URL_hostname seen m ->
    groupMap_of URL_hostname (seen ++ results) (List.fold_left (add_result URL_hostname) results m).
Proof.
  induction results as [|r results IH]; simpl; intros seen m H.
  - now rewrite List.app_nil_r.
  - replace (seen ++ r :: results)%list with ((seen ++ [r]) ++ results)%list
      by (rewrite <- List.app_assoc; reflexivity).
    apply IH. now apply add_result_groupMap.
Qed.

Lemma build_groupMap_spec results :
  groupMap_of URL_hostname results (build_groupMap URL_hostname results).
Proof.
  apply (fold_groupMap results [] []).
  split; [constructor|]. split; [intros ? ? []|intros ? ? []].
Qed.

(** *** The groups *)



Lemma StronglySorted_on {A} (good : A -> Prop) (R S : A -> A -> Prop) l :
  (forall x y, good x -> good y -> R x y -> S x y) ->
  Forall good l -> StronglySorted R l -> StronglySorted S l.
Proof.
  intros HRS Hg Hs. induction Hs as [|x l Hs IH Hx]; [constructor|].
  inversion Hg as [|? ? Hgx Hgl]; subst. constructor; [auto|].
  rewrite Forall_forall in Hx, Hgl |- *. auto.
Qed.



Lemma in_filter_hosted results d r :
  In r (List.filter (hosted URL_hostname d) results) <->
  In r results /\ host_of URL_hostname r = Some d.
Proof. rewrite List.filter_In, hosted_true. reflexivity. Qed.

(** The group made of an entry of [groupMap]. *)
Lemma make_group_members results d rs :
  rs = List.filter (hosted URL_hostname d) results -> rs <> [] ->
  exists g,
    make_group Date_parse (d, rs) = Some g /\ g_domain g = d /\
    g_results g = Array_sort (compare_recent Date_parse) rs /\
    group_members URL_hostname results g /\
    exists first rest,
      g_results g = first :: rest /\
      g_url g = or_string (url first) d /\
      g_lastTested g = or_string (created_at first) "".
Proof.
  intros Hrs Hnz. unfold make_group.
  pose proof (Array_sort_Permutation (compare_recent Date_parse) rs) as Hp.
  destruct (Array_sort (compare_recent Date_parse) rs) as [|first rest] eqn:Es.
  { apply Permutation_sym, Permutation_nil in Hp. contradiction. }
  eexists. split; [reflexivity|]. simpl. split; [reflexivity|]. split; [reflexivity|].
  split.
  - unfold group_members. simpl. rewrite <- Hrs. split; [now apply Permutation_sym|].
    split.
    + intros r. rewrite <- in_filter_hosted, <- Hrs. split; intros H.
      * apply (Permutation_in _ (Permutation_sym Hp)), H.
      * apply (Permutation_in _ Hp), H.
    + apply Permutation_length in Hp. simpl in Hp. now rewrite Hp.
  - exists first, rest. repeat split.
Qed.


Lemma map_groups_total results m :
  (forall d rs, In (d, rs) m -> rs = List.filter (hosted URL_hostname d) results /\ rs <> []) ->
  exists gs,
    map_groups Date_parse m = Some gs /\
    List.map g_domain gs = List.map fst m /\
    Forall (group_members URL_hostname results) gs /\
    Forall (fun g => exists rs, rs = List.filter (hosted URL_hostname (g_domain g)) results /\
                                make_group Date_parse (g_domain g, rs) = Some g) gs.
Proof.
  induction m as [|[d rs] m IH]; intros H.
  - exists []. repeat split; constructor.
  - destruct (H d rs (or_introl eq_refl)) as [Hrs Hnz].
    destruct (make_group_members results d rs Hrs Hnz) as (g & Eg & Hd & _ & Hm & _).
    destruct IH as (gs & Egs & Hdom & Hmem & Hmk); [intros; apply H; now right|].
    exists (g :: gs). cbn [map_groups]. rewrite Eg, Egs. simpl. rewrite Hd, Hdom.
    repeat split; constructor; try assumption.
    exists rs. subst d. now rewrite <- Hrs.
Qed.



(** The grouping returns for every collection, and partitions the records
    that have a host name by that name. *)
Lemma websiteGroups_partition results :
  exists gs groups,
    map_groups Date_parse (build_groupMap URL_hostname results) = Some gs /\
    fetchWebsiteGroups URL_hostname Date_parse results = Some groups /\
    Permutation gs groups /\
    NoDup (List.map g_domain groups) /\
    (forall d, In d (List.map g_domain groups) <->
               exists r, In r results /\ host_of URL_hostname r = Some d) /\
    Forall (group_members URL_hostname results) groups /\
    Forall (fun g => exists rs, rs = List.filter (hosted URL_hostname (g_domain g)) results /\
                                make_group Date_parse (g_domain g, rs) = Some g) gs.
Proof.
  destruct (build_groupMap_spec results) as (Hnd & Hent & Hcov).
  destruct (map_groups_total results _ Hent) as (gs & Egs & Hdom & Hmem & Hmk).
  exists gs, (Array_sort (compare_groups Date_parse) gs).
  pose proof (Array_sort_Permutation (compare_groups Date_parse) gs) as Hp.
  unfold fetchWebsiteGroups. rewrite Egs.
  split; [reflexivity|]. split; [reflexivity|]. split; [exact Hp|].
  assert (Hpd : Permutation (List.map g_domain gs)
                  (List.map g_domain (Array_sort (compare_groups Date_parse) gs)))
    by now apply Permutation_map.
  split; [|split; [|split]].
  - apply (Permutation_NoDup Hpd). now rewrite Hdom.
  - intros d. split.
    + intros Hd. apply (Permutation_in _ (Permutation_sym Hpd)) in Hd.
      rewrite Hdom in Hd. apply List.in_map_iff in Hd as ([d' rs] & Hfst & Hin).
      simpl in Hfst. subst d'. destruct (Hent d rs Hin) as [Hrs Hnz].
      destruct rs as [|r rs']; [contradiction|].
      exists r. apply in_filter_hosted. rewrite <- Hrs. now left.
    + intros (r & Hr & Hh). apply (Permutation_in _ Hpd). rewrite Hdom.
      apply (Hcov r d Hr Hh).
  - apply (Permutation_Forall Hp Hmem).
  - exact Hmk.
Qed.

End Grouping.





End GroupFacts.

(** ** Number.prototype.toFixed read back by parseFloat *)

Module FixedFacts.

Import StrFacts NumFacts.

Lemma digit_char_digit d :
  0 <= d <= 9 ->
  Chars.is_digit (Chars.digit_char d) = true /\ Chars.digit_value (Chars.digit_char d) = d.
Proof.
  intros Hd. unfold Chars.is_digit, Chars.digit_value, Chars.digit_char, Chars.code.
  rewrite N_ascii_embedding by lia.
  split; [apply andb_true_iff; split; apply N.leb_le; lia|lia].
Qed.

Lemma digits_value_from_app s t :
  forall a, Str.digits_value_from a (s ++ t) = Str.digits_value_from (Str.digits_value_from a s) t.
Proof. induction s as [|c s IH]; simpl; intros a; [reflexivity|apply IH]. Qed.

Lemma length_app s t : String.length (s ++ t) = (String.length s + String.length t)%nat.
Proof. induction s as [|c s IH]; simpl; [reflexivity|now rewrite IH]. Qed.

Lemma app_assoc (s t u : string) : ((s ++ t) ++ u = s ++ (t ++ u))%string.
Proof. induction s as [|c s IH]; simpl; [reflexivity|now rewrite IH]. Qed.

Lemma app_empty_r (s : string) : (s ++ "" = s)%string.
Proof. induction s as [|c s IH]; simpl; [reflexivity|now rewrite IH]. Qed.

Lemma pow10_S n : Num.pow10 (S n) = 10 * Num.pow10 n.
Proof.
  unfold Num.pow10. rewrite Nat2Z.inj_succ, Z.pow_succ_r by lia. reflexivity.
Qed.


Lemma digits_from_spec fuel :
  forall n acc, 0 <= n < Num.pow10 (S fuel) ->
    exists pre, Str.digits_from (S fuel) n acc = pre ++ acc /\ Num.digits_for n pre.
Proof.
  induction fuel as [|fuel IH]; intros n acc Hn;
    cbn [Str.digits_from];
    assert (Hd : 0 <= n mod 10 <= 9) by (pose proof (Z.mod_pos_bound n 10); lia);
    destruct (digit_char_digit _ Hd) as [Hdig Hval];
    destruct (n <? 10) eqn:E.
  1, 3: apply Z.ltb_lt in E; exists (String (Chars.digit_char (n mod 10)) "");
    (split; [reflexivity|]); (split; [simpl; now rewrite Hdig|]); (split; [discriminate|]);
    intros a; cbn [Str.digits_value_from String.length];
    rewrite Hval, Z.mod_small by lia;
    change (Num.pow10 1) with 10; lia.
  - apply Z.ltb_ge in E. change (Num.pow10 1) with 10 in Hn. lia.
  - apply Z.ltb_ge in E.
    destruct (IH (n / 10) (String (Chars.digit_char (n mod 10)) acc)) as (pre & Epre & Hf & Hne & Hv).
    { rewrite pow10_S in Hn. split; [apply Z.div_pos; lia|].
      apply Z.div_lt_upper_bound; lia. }
    exists (pre ++ String (Chars.digit_char (n mod 10)) "").
    split; [cbn [Str.digits_from] in Epre; rewrite Epre, app_assoc; reflexivity|].
    split; [|split].
    + rewrite forallb_app, Hf. simpl. now rewrite Hdig.
    + destruct pre; [contradiction|discriminate].
    + intros a. rewrite digits_value_from_app, Hv.
      cbn [Str.digits_value_from]. rewrite Hval.
      rewrite length_app. cbn [String.length]. rewrite Nat.add_comm.
      cbn [Nat.add]. rewrite pow10_S.
      pose proof (Z.div_mod n 10). nia.
Qed.

Lemma digits_of_spec n : 0 <= n -> Num.digits_for n (Str.digits_of n).
Proof.
  intros Hn. unfold Str.digits_of.
  destruct (digits_from_spec (Z.to_nat (Z.log2 n)) n "") as (pre & E & H).
  - split; [assumption|].
    destruct (Z.eq_dec n 0) as [->|Hz]; [apply pow10_pos|].
    pose proof (Z.log2_spec n ltac:(lia)) as [_ Hlt].
    pose proof (Z.log2_nonneg n).
    apply Z.lt_le_trans with (2 ^ Z.succ (Z.log2 n)); [assumption|].
    unfold Num.pow10. rewrite Nat2Z.inj_succ, Z2Nat.id by assumption.
    apply Z.pow_le_mono_l. lia.
  - rewrite E, app_empty_r. exact H.
Qed.

(** *** Reading digit blocks *)

Lemma span_app p a rest :
  Str.forallb p a = true ->
  match rest with String c _ => p c = false | EmptyString => True end ->
  Str.span p (a ++ rest) = (a, rest).
Proof.
  intros Ha Hrest. induction a as [|c a IH]; simpl in *.
  - destruct rest as [|c r]; [reflexivity|]. simpl. now rewrite Hrest.
  - apply andb_true_iff in Ha as [Hc Ha]. now rewrite Hc, (IH Ha).
Qed.

Lemma parseFloat_unsigned c s :
  Chars.numeric_char c = true ->
  Num.parseFloat (String c s) = Num.parse_unsigned false (String c s).
Proof.
  intros Hc. destruct (numeric_char_cases c Hc) as (Hsp & Hm & Hp & HI).
  unfold Num.parseFloat; cbn [Str.drop_while]. rewrite Hsp, Hm, Hp.
  unfold Num.parse_signless. cbn [Str.strip_prefix]. now rewrite HI.
Qed.

Lemma digit_numeric c : Chars.is_digit c = true -> Chars.numeric_char c = true.
Proof. unfold Chars.numeric_char. now intros ->. Qed.

Lemma parseFloat_digits_first a rest :
  Str.forallb Chars.is_digit a = true -> a <> "" ->
  Num.parseFloat (a ++ rest) = Num.parse_unsigned false (a ++ rest).
Proof.
  destruct a as [|c a]; [contradiction|]. simpl. intros H _.
  apply andb_true_iff in H as [Hc _]. apply parseFloat_unsigned, digit_numeric, Hc.
Qed.

Lemma is_empty_false s : s <> "" -> Str.is_empty s = false.
Proof. destruct s; [contradiction|reflexivity]. Qed.


(** A block of digits is read as the integer with those digits. *)
Lemma parseFloat_integer a :
  Str.forallb Chars.is_digit a = true -> a <> "" ->
  Num.parseFloat a = Num.Finite (Num.Dec (Str.digits_value a * Num.pow10 0) 0).
Proof.
  intros Ha Hne. rewrite <- (app_empty_r a) at 1.
  rewrite parseFloat_digits_first by assumption. rewrite app_empty_r.
  unfold Num.parse_unsigned.
  pose proof (span_app Chars.is_digit a "" Ha I) as Hs. rewrite app_empty_r in Hs.
  rewrite Hs. rewrite (is_empty_false a Hne).
  unfold Num.decimal_of_parts. now rewrite app_empty_r.
Qed.

(** *** Cutting a string in two *)





(** *** Rounding *)



(** *** The scientific form *)












(** *** The exported cells *)






End FixedFacts.


(** ** More on the endpoints *)

Module RouteMore.

Import Route StrFacts NumFacts RouteFacts.

Lemma normalise_fields res targetUrl strategy rec :
  outcome (normalise res targetUrl strategy) = inr rec ->
  url rec = targetUrl /\ device_strategy rec = strategy.
Proof.
  unfold normalise.
  destruct (parseMetricValue_any_pure (First_Contentful_Paint (lighthouseMetrics res))) as [o1 E1].
  destruct (parseMetricValue_any_pure (Speed_Index (lighthouseMetrics res))) as [o2 E2].
  destruct (parseMetricValue_any_pure (Largest_Contentful_Paint (lighthouseMetrics res))) as [o3 E3].
  destruct (parseMetricValue_any_pure (Total_Blocking_Time (lighthouseMetrics res))) as [o4 E4].
  destruct (parseMetricValue_any_pure (Time_To_Interactive (lighthouseMetrics res))) as [o5 E5].
  rewrite E1, E2, E3, E4, E5.
  destruct o1 as [e1|v1]; [discriminate|].
  destruct o2 as [e2|v2]; [discriminate|].
  destruct o3 as [e3|v3]; [discriminate|].
  destruct o4 as [e4|v4]; [discriminate|].
  destruct o5 as [e5|v5]; [discriminate|].
  simpl. intros [= <-]. split; reflexivity.
Qed.

(** The analysis of a request: what was fetched, and what came out. *)
Lemma analyse_inversion w u strategy :
  (exists e, analyse w u strategy = ([], inl e) /\ forall s, strategy <> JStr s) \/
  (exists s q,
      strategy = JStr s /\
      q = {| q_url := u; q_strategy := Some (Str.toUpperCase s);
             q_key := key_param (api_key w) |} /\
      ((exists e, analyse w u strategy = ([Fetch q], inl e)) \/
       (exists resp data res rec,
           upstream w q = FetchResolves resp /\ ok resp = true /\
           json_body resp = Some data /\ data <> JNull /\
           extract data = ([], inr res) /\
           outcome (normalise res u strategy) = inr rec /\
           analyse w u strategy = ([Fetch q], inr (res, rec))))).
Proof.
  destruct strategy as [| | |s| |];
    try (left; eexists; split; [reflexivity|]; intros s; discriminate).
  right. exists s. eexists. split; [reflexivity|]. split; [reflexivity|].
  unfold analyse. cbn [toUpperCase_any bind ret].
  set (q := {| q_url := u; q_strategy := Some (Str.toUpperCase s);
               q_key := key_param (api_key w) |}).
  unfold fetch. simpl. destruct (upstream w q) as [|resp] eqn:Eup; simpl.
  { left. now eexists. }
  destruct (ok resp) eqn:Eok; simpl; [|left; now eexists].
  unfold response_json. destruct (json_body resp) as [data|] eqn:Ebody; simpl;
    [|left; now eexists].
  assert (Hd : data = JNull \/ data <> JNull)
    by (destruct data; [left; reflexivity|right; discriminate..]).
  destruct Hd as [->|Hd]; [left; now eexists|].
  destruct (extract_value data Hd) as (res & E & _).
  rewrite E. simpl.
  pose proof (normalise_pure res u (JStr s)) as Hp.
  destruct (normalise res u (JStr s)) as [t [e|rec]] eqn:En; simpl in *; subst t.
  - left. now eexists.
  - right. exists resp, data, res, rec. repeat split; try assumption; try reflexivity.
    now rewrite En.
Qed.

Lemma POST_trace_analysed w u strategy :
  outcome (read_request w) = inr (Some u, strategy) ->
  truthy u = true ->
  POST w =
    match analyse w u strategy with
    | (t, inl _) => ((t ++ [ConsoleError "PageSpeed Insights API error:"])%list,
                     inr generic_failure)
    | (t, inr (res, rec)) =>
        let (t', o) := save w rec res in
        ((t ++ t')%list,
         match o with
         | inr res' => inr (json_response 200 (ResultBody res'))
         | inl _ => inr generic_failure
         end)
    end.
Proof.
  intros Hr Hu. rewrite POST_unfold. pose proof (read_request_pure w) as Ht.
  destruct (read_request w) as [tr [e'|v]]; simpl in *; [discriminate|].
  injection Hr as ->. subst tr. rewrite Hu.
  destruct (analyse w u strategy) as [t [e|[res rec]]]; simpl; [reflexivity|].
  destruct (save_result w rec res) as (t' & res' & Es & _). rewrite Es. simpl.
  now rewrite List.app_nil_r.
Qed.

(** An insert in the log of a request comes from a completed analysis. *)
Lemma POST_insert_inversion w rec :
  In (Insert rec) (trace (POST w)) ->
  exists u s q resp data res,
    outcome (read_request w) = inr (Some u, JStr s) /\ truthy u = true /\
    q = {| q_url := u; q_strategy := Some (Str.toUpperCase s);
           q_key := key_param (api_key w) |} /\
    upstream w q = FetchResolves resp /\ ok resp = true /\
    json_body resp = Some data /\ extract data = ([], inr res) /\
    outcome (normalise res u (JStr s)) = inr rec /\
    exists t res',
      POST w = (Fetch q :: Insert rec :: t, inr (json_response 200 (ResultBody res'))) /\
      List.filter is_Insert t = [] /\ List.filter is_Fetch t = [].
Proof.
  intros Hin.
  destruct (outcome (read_request w)) as [e|[t strategy]] eqn:Hr.
  { rewrite (POST_read_fails w e Hr) in Hin. simpl in Hin.
    destruct Hin as [H|[]]; discriminate. }
  destruct (truthy_opt t) eqn:Ht.
  2: { rewrite (POST_no_url w t strategy Hr Ht) in Hin. destruct Hin. }
  destruct t as [u|]; [|discriminate]. simpl in Ht.
  pose proof (POST_trace_analysed w u strategy Hr Ht) as EP.
  destruct (analyse_inversion w u strategy)
    as [(e & Ea & _)|(s & q & -> & Eq & [(e & Ea)|(resp & data & res & rec0 & Hup & Hok & Hb & _ & Hex & Hn & Ea)])].
  - rewrite Ea in EP. rewrite EP in Hin. simpl in Hin.
    destruct Hin as [H|[]]; discriminate.
  - rewrite Ea in EP. rewrite EP in Hin. simpl in Hin.
    destruct Hin as [H|[H|[]]]; discriminate.
  - rewrite Ea in EP.
    destruct (save_result w rec0 res) as (t' & res' & Es & Hi & Hf & _).
    rewrite Es in EP. simpl in EP. rewrite EP in Hin. simpl in Hin.
    assert (rec = rec0).
    { destruct Hin as [H|[H|H]]; [discriminate|now injection H|].
      exfalso. assert (Hin' : In (Insert rec) (List.filter is_Insert t'))
        by (apply List.filter_In; split; [exact H|reflexivity]).
      rewrite Hi in Hin'. destruct Hin'. }
    subst rec0.
    exists u, s, q, resp, data, res. repeat split; try assumption.
    exists t', res'. repeat split; assumption.
Qed.

(** X1.  A request is served with at most one call of the PageSpeed API and
    at most one insert; an insert is only attempted after the one fetch, and
    the answer is 200 exactly when an insert was attempted. *)
Theorem POST_effects_once :
  forall w,
    (List.length (List.filter is_Fetch (trace (POST w))) <= 1)%nat /\
    (List.length (List.filter is_Insert (trace (POST w))) <= 1)%nat /\
    (forall rec, In (Insert rec) (trace (POST w)) ->
                 exists q t, trace (POST w) = Fetch q :: Insert rec :: t) /\
    ((exists res, outcome (POST w) = inr (json_response 200 (ResultBody res))) <->
     exists rec, In (Insert rec) (trace (POST w))).
Proof.
  intros w.
  assert (Hcases :
    (List.filter is_Insert (trace (POST w)) = [] /\
     (List.length (List.filter is_Fetch (trace (POST w))) <= 1)%nat /\
     (outcome (POST w) = inr generic_failure \/ outcome (POST w) = inr url_required)) \/
    (exists q rec t res',
        POST w = (Fetch q :: Insert rec :: t, inr (json_response 200 (ResultBody res'))) /\
        List.filter is_Insert t = [] /\ List.filter is_Fetch t = [])).
  { destruct (outcome (read_request w)) as [e|[t strategy]] eqn:Hr.
    { left. rewrite (POST_read_fails w e Hr). simpl. auto. }
    destruct (truthy_opt t) eqn:Ht.
    2: { left. rewrite (POST_no_url w t strategy Hr Ht). simpl. auto. }
    destruct t as [u|]; [|discriminate]. simpl in Ht.
    pose proof (POST_trace_analysed w u strategy Hr Ht) as EP.
    destruct (analyse_inversion w u strategy)
      as [(e & Ea & _)|(s & q & -> & Eq & [(e & Ea)|(resp & data & res & rec0 & _ & _ & _ & _ & _ & _ & Ea)])];
      rewrite Ea in EP.
    - left. rewrite EP. simpl. auto.
    - left. rewrite EP. simpl. auto.
    - right. destruct (save_result w rec0 res) as (t' & res' & Es & Hi & Hf & _).
      rewrite Es in EP. simpl in EP. exists q, rec0, t', res'. auto. }
  destruct Hcases as [(Hi & Hf & Ho)|(q & rec & t & res' & EP & Hi & Hf)].
  - split; [exact Hf|]. rewrite Hi. split; [simpl; lia|]. split.
    + intros rec Hin. exfalso.
      assert (Hin' : In (Insert rec) (List.filter is_Insert (trace (POST w))))
        by (apply List.filter_In; split; [exact Hin|reflexivity]).
      rewrite Hi in Hin'. destruct Hin'.
    + split.
      * intros (res & E). destruct Ho as [Ho|Ho]; rewrite Ho in E; discriminate.
      * intros (rec & Hin). exfalso.
        assert (Hin' : In (Insert rec) (List.filter is_Insert (trace (POST w))))
          by (apply List.filter_In; split; [exact Hin|reflexivity]).
        rewrite Hi in Hin'. destruct Hin'.
  - rewrite EP. simpl. rewrite Hi, Hf. simpl.
    split; [lia|]. split; [lia|]. split.
    + intros rec0 [H|[H|H]]; [discriminate| |].
      * injection H as <-. now exists q, t.
      * exfalso. assert (Hin' : In (Insert rec0) (List.filter is_Insert t))
          by (apply List.filter_In; split; [exact H|reflexivity]).
        rewrite Hi in Hin'. destruct Hin'.
    + split; [intros _; exists rec; auto|intros _; now exists res'].
Qed.





Ltac plain_done :=
  simpl; split; [reflexivity|]; split; [lia|]; split;
  [ let q := fresh "q" in let Hin := fresh "Hin" in
    intros q Hin; simpl in Hin;
    repeat (destruct Hin as [Hin|Hin]; [try discriminate; try (now eauto)|]);
    destruct Hin
  | auto ].

(** X4.  The endpoint without persistence never touches the store, calls the
    PageSpeed API at most once and without naming a strategy, and answers
    400 "URL is required", the generic 500, or 200 with a result that has no
    database identifier. *)
Theorem POST_plain_effects :
  forall w,
    List.filter is_Insert (trace (POST_plain w)) = [] /\
    (List.length (List.filter is_Fetch (trace (POST_plain w))) <= 1)%nat /\
    (forall q, In (Fetch q) (trace (POST_plain w)) ->
               q_strategy q = None /\ q_key q = key_param (api_key w) /\
               exists body, request_json w = Some body /\ get body "url" = Some (q_url q)) /\
    (outcome (POST_plain w) = inr url_required \/
     outcome (POST_plain w) = inr generic_failure \/
     exists res, outcome (POST_plain w) = inr (json_response 200 (ResultBody res)) /\
                 databaseId res = None).
Proof.
  intros w. unfold POST_plain.
  destruct (request_json w) as [body|] eqn:Eb; [|plain_done].
  assert (Hb : body = JNull \/ body <> JNull)
    by (destruct body; [left; reflexivity|right; discriminate..]).
  destruct Hb as [->|Hb]; [plain_done|].
  assert (E : forall A (x y : A),
             match body with JNull => x | _ => y end = y)
    by (intros; destruct body; [contradiction|reflexivity..]).
  rewrite E. clear E.
  destruct (get body "url") as [u|] eqn:Eu; [|plain_done].
  destruct (truthy u) eqn:Hu; [|plain_done].
  set (q0 := {| q_url := u; q_strategy := None; q_key := key_param (api_key w) |}).
  assert (Hq : forall q, Fetch q0 = Fetch q ->
                 q_strategy q = None /\ q_key q = key_param (api_key w) /\
                 exists body', Some body = Some body' /\ get body' "url" = Some (q_url q)).
  { intros q [= <-]. split; [reflexivity|]. split; [reflexivity|]. now exists body. }
  unfold fetch. simpl. destruct (upstream w q0) as [|resp]; simpl; [plain_done|].
  destruct (ok resp); simpl; [|plain_done].
  unfold response_json. destruct (json_body resp) as [data|]; simpl; [|plain_done].
  assert (Hd : data = JNull \/ data <> JNull)
    by (destruct data; [left; reflexivity|right; discriminate..]).
  destruct Hd as [->|Hd]; [plain_done|].
  destruct (extract_value data Hd) as (res & Ee & _ & Hdb & _).
  rewrite Ee. simpl. split; [reflexivity|]. split; [lia|]. split.
  - intros q [H|[]]. now apply Hq.
  - right. right. now exists res.
Qed.

Lemma non_string_throws v :
  truthy v = true -> (forall x, v <> JStr x) ->
  parseMetricValue_any v = ([], inl TypeError).
Proof.
  intros Ht Hs. unfold parseMetricValue_any. rewrite Ht. simpl.
  destruct v; try reflexivity. now destruct (Hs s).
Qed.

Lemma normalise_non_string res u strategy m v :
  MoreSamples.is_lighthouse m = true -> extracted m res = v ->
  truthy v = true -> (forall x, v <> JStr x) ->
  exists e, normalise res u strategy = ([], inl e).
Proof.
  intros Hm Hmv Hv Hns. pose proof (normalise_pure res u strategy) as Hp.
  destruct (normalise res u strategy) as [t [e|rec]] eqn:En; simpl in Hp; subst t.
  - now exists e.
  - exfalso. assert (Hn : outcome (normalise res u strategy) = inr rec) by now rewrite En.
    destruct m; try discriminate;
      match type of Hmv with
      | extracted ?m0 _ = _ =>
          pose proof (normalise_measurement _ _ _ _ Hn m0 _ eq_refl) as Hx;
          rewrite Hmv, (non_string_throws v Hv Hns) in Hx; discriminate
      end.
Qed.

(** X5.  A display value of a Lighthouse metric that is truthy and not a
    string (a number, say) makes the storing endpoint answer the generic
    500 without attempting an insert, while the endpoint without
    persistence, given the same request and the same document, answers 200
    and passes the value through unchanged. *)
Theorem POST_rejects_non_string_display :
  forall w w' body u s resp data m v,
    request_json w = Some body -> request_json w' = Some body ->
    get body "url" = Some u -> truthy u = true ->
    match get body "strategy" with Some x => x | None => JStr "desktop" end = JStr s ->
    upstream w {| q_url := u; q_strategy := Some (Str.toUpperCase s);
                  q_key := key_param (api_key w) |} = FetchResolves resp ->
    upstream w' {| q_url := u; q_strategy := None;
                   q_key := key_param (api_key w') |} = FetchResolves resp ->
    ok resp = true -> json_body resp = Some data ->
    MoreSamples.is_lighthouse m = true ->
    resolves data (tracked_path m) v ->
    truthy v = true -> (forall x, v <> JStr x) ->
    outcome (POST w) = inr generic_failure /\
    List.filter is_Insert (trace (POST w)) = [] /\
    exists res,
      outcome (POST_plain w') = inr (json_response 200 (ResultBody res)) /\
      extracted m res = v.
Proof.
  intros w w' body u s resp data m v Eb Eb' Eu Hu Es Hup Hup' Hok Hbody Hm Hres Hv Hns.
  assert (Hb : body <> JNull) by (intros ->; discriminate).
  assert (Hd : data <> JNull).
  { intros ->. destruct m; inversion Hres. }
  destruct (extract_value data Hd) as (res & Ee & _ & _ & Hex).
  assert (Hmv : extracted m res = v).
  { rewrite Hex, (resolves_fold _ _ _ Hres). simpl. now rewrite Hv. }
  assert (Hr : outcome (read_request w) = inr (Some u, JStr s)).
  { rewrite (read_request_body w body Eb Hb). simpl. now rewrite Eu, Es. }
  pose proof (POST_trace_analysed w u (JStr s) Hr Hu) as EP.
  destruct (normalise_non_string res u (JStr s) m v Hm Hmv Hv Hns) as (e & En).
  assert (Ea : analyse w u (JStr s)
               = ([Fetch {| q_url := u; q_strategy := Some (Str.toUpperCase s);
                            q_key := key_param (api_key w) |}], inl e)).
  { unfold analyse. cbn [toUpperCase_any bind ret].
    unfold fetch. simpl. rewrite Hup. simpl. rewrite Hok. simpl.
    unfold response_json. rewrite Hbody. simpl. rewrite Ee. simpl.
    now rewrite En. }
  rewrite Ea in EP. rewrite EP. split; [reflexivity|]. split; [reflexivity|].
  exists res. split; [|exact Hmv].
  unfold POST_plain. rewrite Eb'.
  destruct body; try contradiction; simpl in Eu |- *; try discriminate; rewrite Eu, Hu;
    unfold fetch; simpl; rewrite Hup'; simpl; rewrite Hok; simpl;
    unfold response_json; rewrite Hbody; simpl; rewrite Ee; reflexivity.
Qed.

Lemma POST_rejects_non_string_display_witness :
  outcome (POST MoreSamples.w_numeric) = inr generic_failure /\
  List.filter is_Insert (trace (POST MoreSamples.w_numeric)) = [] /\
  exists res,
    outcome (POST_plain MoreSamples.w_numeric) = inr (json_response 200 (ResultBody res)) /\
    extracted lh_si res = JNum (Num.Dec 34 1).
Proof.
  apply (POST_rejects_non_string_display MoreSamples.w_numeric MoreSamples.w_numeric
           Samples.example_request
           (JStr "https://example.com/") "desktop"
           (Samples.ok_response (Some MoreSamples.numeric_document))
           MoreSamples.numeric_document lh_si (JNum (Num.Dec 34 1)));
    try reflexivity.
  - repeat (econstructor; try reflexivity).
  - intros x. discriminate.
Defined.

(** The three ways a request ends, with what was logged. *)
Lemma POST_inversion w :
  (exists t, POST w = (t, inr generic_failure) /\
             List.filter is_Insert t = [] /\
             forall q, In (Fetch q) t ->
               exists u s, outcome (read_request w) = inr (Some u, JStr s) /\
                           truthy u = true /\
                           q = {| q_url := u; q_strategy := Some (Str.toUpperCase s);
                                  q_key := key_param (api_key w) |}) \/
  (POST w = ([], inr url_required) /\
   exists t strategy, outcome (read_request w) = inr (t, strategy) /\ truthy_opt t = false) \/
  (exists u s res rec t res',
      outcome (read_request w) = inr (Some u, JStr s) /\ truthy u = true /\
      outcome (normalise res u (JStr s)) = inr rec /\ databaseId res = None /\
      save w rec res = (Insert rec :: t, inr res') /\
      List.filter is_Insert t = [] /\ List.filter is_Fetch t = [] /\
      POST w = (Fetch {| q_url := u; q_strategy := Some (Str.toUpperCase s);
                         q_key := key_param (api_key w) |} :: Insert rec :: t,
                inr (json_response 200 (ResultBody res')))).
Proof.
  destruct (outcome (read_request w)) as [e|[t strategy]] eqn:Hr.
  { left. eexists. split; [apply (POST_read_fails w e Hr)|]. split; [reflexivity|].
    intros q [H|[]]. discriminate. }
  destruct (truthy_opt t) eqn:Ht.
  2: { right. left. split; [apply (POST_no_url w t strategy Hr Ht)|]. now exists t, strategy. }
  destruct t as [u|]; [|discriminate]. simpl in Ht.
  pose proof (POST_trace_analysed w u strategy Hr Ht) as EP.
  destruct (analyse_inversion w u strategy)
    as [(e & Ea & _)|(s & q & -> & Eq & [(e & Ea)|(resp & data & res & rec & _ & _ & _ & Hd & He & Hn & Ea)])];
    rewrite Ea in EP.
  - left. eexists. split; [exact EP|]. split; [reflexivity|].
    intros q [H|[]]. discriminate.
  - left. eexists. split; [exact EP|]. split; [reflexivity|].
    intros q' [H|[H|[]]]; [|discriminate]. injection H as <-. now exists u, s.
  - right. right.
    destruct (save_result w rec res) as (t' & res' & Es & Hi & Hf & _).
    rewrite Es in EP. simpl in EP. subst q.
    destruct (extract_value data Hd) as (res0 & He0 & _ & Hdb & _).
    rewrite He in He0. injection He0 as <-.
    exists u, s, res, rec, t', res'. repeat split; assumption.
Qed.

End RouteMore.

(** ** The form in front of the endpoint *)

Module FormFacts.

Import Route Form RouteFacts RouteMore.

Lemma read_request_form w url :
  read_request (with_request w (request_body url)) = ([], inr (Some (JStr url), JStr "desktop")).
Proof. reflexivity. Qed.

(** The form logs nothing of its own. *)
Lemma handleSubmit_trace message endpoint url :
  fst (handleSubmit message endpoint url) = trace (endpoint (request_body url)).
Proof.
  unfold handleSubmit.
  destruct (endpoint (request_body url)) as [t [e|r]]; simpl; [reflexivity|].
  destruct (negb (response_ok r)); [reflexivity|].
  now destruct (truthy_opt (body_databaseId (http_body r))).
Qed.

(** X6.  The form sends the url and nothing else, so whatever is typed, the
    PageSpeed API is only ever asked for that url with the strategy DESKTOP,
    and a row is only ever stored with that url and the strategy
    "desktop". *)
Theorem submit_always_desktop :
  forall message w url ev,
    In ev (fst (submit message w url)) ->
    match ev with
    | Fetch q => q_url q = JStr url /\ q_strategy q = Some "DESKTOP"
    | Insert r => Route.url r = JStr url /\ device_strategy r = JStr "desktop"
    | _ => True
    end.
Proof.
  intros message w url ev Hin.
  unfold submit in Hin. rewrite handleSubmit_trace in Hin.
  set (w' := with_request w (request_body url)) in *.
  pose proof (read_request_form w url) as Hr. fold w' in Hr.
  destruct ev as [q|r| |]; try exact I.
  - destruct (POST_inversion w')
      as [(t & EP & _ & Hf)|[(EP & _)|(u & s & res & rec & t & res' & Hr' & _ & _ & _ & _ & _ & Hf & EP)]];
      rewrite EP in Hin; simpl in Hin.
    + destruct (Hf q Hin) as (u & s & Hr' & _ & ->).
      rewrite Hr in Hr'. simpl in Hr'. injection Hr' as <- <-. split; reflexivity.
    + destruct Hin.
    + rewrite Hr in Hr'. simpl in Hr'. injection Hr' as <- <-.
      destruct Hin as [H|[H|H]]; [injection H as <-; split; reflexivity|discriminate|].
      exfalso. assert (Hin' : In (Fetch q) (List.filter is_Fetch t))
        by (apply List.filter_In; split; [exact H|reflexivity]).
      rewrite Hf in Hin'. destruct Hin'.
  - destruct (POST_insert_inversion w' r Hin)
      as (u & s & q & resp & data & res & Hr' & _ & _ & _ & _ & _ & _ & Hn & _).
    rewrite Hr in Hr'. simpl in Hr'. injection Hr' as <- <-.
    apply (normalise_fields _ _ _ _ Hn).
Qed.

Lemma submit_always_desktop_witness :
  Route.url Samples.example_record = JStr "https://example.com/" /\
  device_strategy Samples.example_record = JStr "desktop".
Proof.
  apply (submit_always_desktop (fun _ => "An error occurred") Samples.w_saved
           "https://example.com/" (Insert Samples.example_record)).
  right. left. reflexivity.
Defined.


End FormFacts.

(** ** The views *)

Module ViewFacts.

Import OrderFacts GroupFacts.

(** *** Stability of the sort *)

Section Stable.

Context {A : Type} (comparefn : A -> A -> option Z) (p : A -> bool).



End Stable.

Section History.

Variable URL_hostname : string -> option string.
Variable Date_parse : string -> time.
Variable toLocaleDateString : time -> string.



(** X9.  For the same selection the history view, in any sort order, and the
    chart show the same records: those the two filters keep, each as often
    as it was fetched. *)
Theorem views_show_kept_records :
  forall results selectedWebsite strategyFilter sortField sortDirection,
    let shown :=
      fetchResults URL_hostname Date_parse results selectedWebsite strategyFilter
                   sortField sortDirection in
    let charted :=
      chart_fetchResults URL_hostname Date_parse results selectedWebsite strategyFilter in
    Permutation shown (List.filter (kept URL_hostname selectedWebsite strategyFilter) results) /\
    Permutation shown charted /\
    List.length (chartData Date_parse toLocaleDateString charted) = List.length shown /\
    (List.length shown <= List.length results)%nat.
Proof.
  intros results sel st field direction shown charted. subst shown charted.
  unfold fetchResults, chart_fetchResults, sortResults, chartData.
  rewrite (filterResults_kept URL_hostname results sel st).
  set (l := List.filter (kept URL_hostname sel st) results).
  pose proof (Array_sort_Permutation (compare_results Date_parse field direction) l) as H1.
  pose proof (Array_sort_Permutation (compare_oldest Date_parse) l) as H2.
  split; [now apply Permutation_sym|]. split.
  - eapply Permutation_trans; [apply Permutation_sym; exact H1|exact H2].
  - split.
    + rewrite List.length_map, <- (Permutation_length H1), <- (Permutation_length H2).
      reflexivity.
    + rewrite <- (Permutation_length H1). apply List.filter_length_le.
Qed.

(** *** The side navigation and the history view *)

Lemma kept_domain d r :
  d <> "" -> kept URL_hostname (Some d) all r = hosted URL_hostname d r.
Proof.
  intros Hd. unfold kept, selected.
  destruct d as [|c d]; [contradiction|]. simpl. apply andb_true_r.
Qed.

(** X10.  Selecting a group of the side navigation (one whose domain is not
    the empty string) makes the history view show exactly the records of
    that group, so the count on the group's label is the number of rows
    shown. *)
Theorem group_selection_shows_group :
  forall results groups g sortField sortDirection,
    fetchWebsiteGroups URL_hostname Date_parse results = Some groups ->
    In g groups ->
    g_domain g <> "" ->
    let shown :=
      fetchResults URL_hostname Date_parse results (Some (g_domain g)) all
                   sortField sortDirection in
    Permutation (g_results g) shown /\ g_count g = List.length shown.
Proof.
  intros results groups g field direction Eg Hin Hd shown. subst shown.
  destruct (websiteGroups_partition URL_hostname Date_parse results)
    as (gs & groups' & _ & Eg' & _ & _ & _ & Hmem & _).
  rewrite Eg in Eg'. injection Eg' as <-.
  rewrite Forall_forall in Hmem. destruct (Hmem g Hin) as (Hp & _ & Hc).
  unfold fetchResults, sortResults.
  rewrite (filterResults_kept URL_hostname results (Some (g_domain g)) all).
  rewrite (List.filter_ext _ _ (fun r => kept_domain (g_domain g) r Hd)).
  set (l := List.filter (hosted URL_hostname (g_domain g)) results) in *.
  pose proof (Array_sort_Permutation (compare_results Date_parse field direction) l) as Hs.
  split.
  - eapply Permutation_trans; [exact Hp|exact Hs].
  - rewrite Hc. apply (Permutation_length Hs).
Qed.

Lemma list_sum_add {B} (a b : B -> nat) l :
  list_sum (List.map (fun x => a x + b x)%nat l)
  = (list_sum (List.map a l) + list_sum (List.map b l))%nat.
Proof. induction l as [|x l IH]; simpl; [reflexivity|]. rewrite IH. lia. Qed.

Lemma list_sum_ext {B} (a b : B -> nat) l :
  (forall x, In x l -> a x = b x) ->
  list_sum (List.map a l) = list_sum (List.map b l).
Proof.
  induction l as [|x l IH]; simpl; intros H; [reflexivity|].
  rewrite (H x (or_introl eq_refl)), IH; [reflexivity|]. intros y Hy. apply H. now right.
Qed.

(** A record is counted under its own host name and no other. *)
Lemma count_one_host ds r :
  NoDup ds ->
  (forall d, host_of URL_hostname r = Some d -> In d ds) ->
  list_sum (List.map (fun d => if hosted URL_hostname d r then 1 else 0)%nat ds)
  = if has_host URL_hostname r then 1%nat else 0%nat.
Proof.
  unfold has_host, hosted. destruct (host_of URL_hostname r) as [h|].
  - intros Hnd Hin. specialize (Hin h eq_refl).
    induction Hnd as [|d ds Hd Hnd IH]; [destruct Hin|].
    simpl. destruct (String.eqb_spec h d) as [->|Hne].
    + assert (E : list_sum (List.map (fun d0 => if (d =? d0)%string then 1 else 0)%nat ds) = 0%nat).
      { clear IH Hin. induction ds as [|d' ds IH]; [reflexivity|]. simpl.
        destruct (String.eqb_spec d d') as [->|_].
        - exfalso. apply Hd. now left.
        - apply IH; [intros H; apply Hd; now right|now inversion Hnd]. }
      rewrite E. reflexivity.
    + destruct Hin as [->|Hin]; [contradiction|]. now apply IH.
  - intros _ _. induction ds as [|d ds IH]; simpl; auto.
Qed.

Lemma count_by_host ds results :
  NoDup ds ->
  (forall r d, In r results -> host_of URL_hostname r = Some d -> In d ds) ->
  list_sum (List.map (fun d => List.length (List.filter (hosted URL_hostname d) results)) ds)
  = List.length (List.filter (has_host URL_hostname) results).
Proof.
  intros Hnd. induction results as [|r results IH]; intros Hcov.
  - simpl. clear Hnd Hcov. induction ds as [|d ds IHd]; simpl; [reflexivity|exact IHd].
  - rewrite (list_sum_ext _
               (fun d => (if hosted URL_hostname d r then 1 else 0)
                         + List.length (List.filter (hosted URL_hostname d) results))%nat).
    2: { intros d _. simpl. now destruct (hosted URL_hostname d r). }
    rewrite list_sum_add, IH, count_one_host; [| exact Hnd | |].
    + simpl. now destruct (has_host URL_hostname r).
    + intros d Hd. apply (Hcov r d); [now left|exact Hd].
    + intros r' d Hr'. apply Hcov. now right.
Qed.

(** X11.  The side navigation counts every record whose url parses exactly
    once: the counts of the groups add up to the number of such records,
    and no group is empty. *)
Theorem group_counts_add_up :
  forall results,
    exists groups,
      fetchWebsiteGroups URL_hostname Date_parse results = Some groups /\
      list_sum (List.map g_count groups)
      = List.length (List.filter (has_host URL_hostname) results) /\
      Forall (fun g => (1 <= g_count g)%nat) groups.
Proof.
  intros results.
  destruct (websiteGroups_partition URL_hostname Date_parse results)
    as (gs & groups & _ & Eg & _ & Hnd & Hdom & Hmem & _).
  exists groups. split; [exact Eg|].
  rewrite Forall_forall in Hmem. split.
  - rewrite <- (count_by_host (List.map g_domain groups) results Hnd).
    + rewrite List.map_map. apply list_sum_ext.
      intros g Hg. now destruct (Hmem g Hg) as (_ & _ & Hc).
    + intros r d Hr Hd. apply Hdom. now exists r.
  - rewrite Forall_forall. intros g Hg. destruct (Hmem g Hg) as (_ & _ & Hc).
    assert (Hd : In (g_domain g) (List.map g_domain groups)) by now apply List.in_map.
    apply Hdom in Hd. destruct Hd as (r & Hr & Hh).
    assert (Hin : In r (List.filter (hosted URL_hostname (g_domain g)) results))
      by (apply in_filter_hosted; now split).
    rewrite Hc. destruct (List.filter (hosted URL_hostname (g_domain g)) results);
      [destruct Hin|simpl; lia].
Qed.

(** *** The chart *)

Lemma chart_point_timestamp r :
  p_timestamp (chart_point Date_parse toLocaleDateString r)
  = Date_of_created_at Date_parse (created_at r).
Proof.
  unfold chart_point, Date_of_created_at. simpl.
  destruct (created_at r) as [c|]; [|reflexivity].
  now destruct (Str.is_empty c).
Qed.

Lemma StronglySorted_map {B C} (f : B -> C) (S : C -> C -> Prop) l :
  StronglySorted (fun a b => S (f a) (f b)) l -> StronglySorted S (List.map f l).
Proof.
  induction 1 as [|x l Hs IH Hx]; simpl; constructor; [exact IH|].
  rewrite Forall_forall in Hx |- *. intros y Hy.
  apply List.in_map_iff in Hy as (z & <- & Hz). now apply Hx.
Qed.

Lemma precedes_oldest a b ta tb :
  Date_of_created_at Date_parse (created_at a) = Some ta ->
  Date_of_created_at Date_parse (created_at b) = Some tb ->
  precedes (compare_oldest Date_parse) a b <-> ta <= tb.
Proof.
  intros Ha Hb. unfold precedes, SortCompare, compare_oldest.
  rewrite Ha, Hb. simpl. lia.
Qed.

Lemma timestamp_ok_time r :
  timestamp_ok Date_parse r -> exists t, Date_of_created_at Date_parse (created_at r) = Some t.
Proof.
  unfold timestamp_ok. destruct (Date_of_created_at Date_parse (created_at r)) as [t|];
    [now exists t|contradiction].
Qed.

(** X12.  When the creation time of every record the chart keeps is absent
    or parses, the points of the chart stand oldest first (a record without
    creation time at the epoch), one point for each kept record; and no
    plotted measurement is NaN, whatever the records hold. *)
Theorem chart_oldest_first :
  forall results selectedWebsite strategyFilter,
    Forall (timestamp_ok Date_parse)
           (List.filter (kept URL_hostname selectedWebsite strategyFilter) results) ->
    let points :=
      chartData Date_parse toLocaleDateString
        (chart_fetchResults URL_hostname Date_parse results selectedWebsite strategyFilter) in
    StronglySorted point_le points /\
    List.length points
    = List.length (List.filter (kept URL_hostname selectedWebsite strategyFilter) results) /\
    Forall (fun p => Num.isNaN (p_first_content_paint p) = false /\
                     Num.isNaN (p_speed_index p) = false /\
                     Num.isNaN (p_largest_content_paint p) = false /\
                     Num.isNaN (p_total_blocking_time p) = false /\
                     Num.isNaN (p_time_to_interactive p) = false) points.
Proof.
  intros results sel st Hok points. subst points.
  unfold chartData, chart_fetchResults.
  rewrite (filterResults_kept URL_hostname results sel st).
  set (l := List.filter (kept URL_hostname sel st) results) in *.
  pose proof (Array_sort_Permutation (compare_oldest Date_parse) l) as Hp.
  split; [|split].
  - apply StronglySorted_map.
    apply (StronglySorted_on (timestamp_ok Date_parse)
             (precedes (compare_oldest Date_parse))).
    + intros x y Hx Hy H.
      destruct (timestamp_ok_time x Hx) as (tx & Ex).
      destruct (timestamp_ok_time y Hy) as (ty & Ey).
      exists tx, ty. rewrite !chart_point_timestamp.
      split; [exact Ex|]. split; [exact Ey|].
      now apply (precedes_oldest x y tx ty Ex Ey).
    + rewrite Forall_forall in Hok |- *. intros x Hx. apply Hok.
      apply (Permutation_in _ (Permutation_sym Hp)), Hx.
    + apply (Array_sort_StronglySorted _ (timestamp_ok Date_parse)); [| |exact Hok].
      * intros x y Hx Hy.
        destruct (timestamp_ok_time x Hx) as (tx & Ex).
        destruct (timestamp_ok_time y Hy) as (ty & Ey).
        rewrite (precedes_oldest x y tx ty Ex Ey), (precedes_oldest y x ty tx Ey Ex). lia.
      * intros x y z Hx Hy Hz.
        destruct (timestamp_ok_time x Hx) as (tx & Ex).
        destruct (timestamp_ok_time y Hy) as (ty & Ey).
        destruct (timestamp_ok_time z Hz) as (tz & Ez).
        rewrite (precedes_oldest x y tx ty Ex Ey), (precedes_oldest y z ty tz Ey Ez),
          (precedes_oldest x z tx tz Ex Ez). lia.
  - rewrite List.length_map. symmetry. apply (Permutation_length Hp).
  - rewrite Forall_forall. intros pt Hpt.
    apply List.in_map_iff in Hpt as (r & <- & _).
    cbn [chart_point p_first_content_paint p_speed_index p_largest_content_paint
         p_total_blocking_time p_time_to_interactive].
    repeat split; apply numeric_key_notNaN.
Qed.

End History.


Lemma group_selection_shows_group_witness :
  Permutation (g_results MoreSamples.a_com)
    (fetchResults http_hostname iso_Date_parse MoreSamples.history (Some "a.com") all
                  f_created_at desc) /\
  g_count MoreSamples.a_com
  = List.length (fetchResults http_hostname iso_Date_parse MoreSamples.history
                              (Some "a.com") all f_created_at desc).
Proof.
  apply (group_selection_shows_group http_hostname iso_Date_parse MoreSamples.history
           MoreSamples.history_groups MoreSamples.a_com f_created_at desc).
  - reflexivity.
  - right. right. left. reflexivity.
  - discriminate.
Defined.

Lemma chart_oldest_first_witness :
  StronglySorted point_le
    (chartData iso_Date_parse (fun _ => EmptyString)
       (chart_fetchResults http_hostname iso_Date_parse
          [HistorySamples.jan3; HistorySamples.undated "https://a.com/"; HistorySamples.jan1]
          None all)).
Proof.
  apply (chart_oldest_first http_hostname iso_Date_parse (fun _ => EmptyString)
           [HistorySamples.jan3; HistorySamples.undated "https://a.com/"; HistorySamples.jan1]
           None all).
  repeat (constructor; [intros H; vm_compute in H; discriminate|]). constructor.
Defined.

End ViewFacts.

(** ** Controls, labels and the export *)

Module ComponentFacts.

Import StrFacts OrderFacts.

(** *** Colours *)

Lemma le_trans x y z :
  JsNumber.le x y = true -> JsNumber.le y z = true -> JsNumber.le x z = true.
Proof.
  unfold JsNumber.le.
  destruct (Num.isNaN x) eqn:Hx, (Num.isNaN y) eqn:Hy, (Num.isNaN z) eqn:Hz;
    simpl; try discriminate.
  intros H1 H2. apply negb_true_iff in H1, H2. apply negb_true_iff.
  now apply (lt_false_trans x y z).
Qed.

Lemma grade_monotone good fair x y :
  JsNumber.le x y = true ->
  exists sx sy,
    severity (grade good fair x) = Some sx /\
    severity (grade good fair y) = Some sy /\ (sx <= sy)%nat.
Proof.
  intros H. unfold grade.
  destruct (JsNumber.le y (Num.Finite good)) eqn:Hg.
  - rewrite (le_trans x y _ H Hg). exists 0%nat, 0%nat. repeat split. lia.
  - destruct (JsNumber.le y (Num.Finite fair)) eqn:Hf.
    + rewrite (le_trans x y _ H Hf).
      destruct (JsNumber.le x (Num.Finite good));
        [exists 0%nat, 1%nat|exists 1%nat, 1%nat]; repeat split; lia.
    + destruct (JsNumber.le x (Num.Finite good));
        [exists 0%nat, 2%nat; repeat split; lia|].
      destruct (JsNumber.le x (Num.Finite fair));
        [exists 1%nat, 2%nat|exists 2%nat, 2%nat]; repeat split; lia.
Qed.

(** The case of [getMetricColor] for each of the five measurements. *)
Lemma getMetricColor_grade field :
  field <> f_created_at ->
  exists good fair,
    (forall v, getMetricColor (field_name field) v = grade good fair v) /\
    JsNumber.le Num.zero (Num.Finite good) = true.
Proof.
  intros H. destruct field;
    [ contradiction
    | exists (Num.Dec 18 1), (Num.Dec 30 1)
    | exists (Num.Dec 34 1), (Num.Dec 58 1)
    | exists (Num.Dec 25 1), (Num.Dec 40 1)
    | exists (Num.Dec 200 0), (Num.Dec 600 0)
    | exists (Num.Dec 38 1), (Num.Dec 73 1) ];
    (split; [intros v; reflexivity|reflexivity]).
Qed.

(** X13.  For each of the five measurements the colour is green, yellow or
    red and never improves when the value grows; NaN is red, and the tile of
    a record without the measurement is green. *)
Theorem getMetricColor_monotone :
  forall field,
    field <> f_created_at ->
    (forall x y,
        JsNumber.le x y = true ->
        exists sx sy,
          severity (getMetricColor (field_name field) x) = Some sx /\
          severity (getMetricColor (field_name field) y) = Some sy /\ (sx <= sy)%nat) /\
    getMetricColor (field_name field) Num.NaN = red /\
    (forall r, numeric_field field r = None -> tile_color field r = green).
Proof.
  intros field Hf. destruct (getMetricColor_grade field Hf) as (good & fair & E & Hz).
  split; [|split].
  - intros x y H. rewrite !E. now apply grade_monotone.
  - rewrite E. reflexivity.
  - intros r Hr. unfold tile_color, numeric_key. rewrite Hr, E. unfold grade.
    now rewrite Hz.
Qed.

Lemma getMetricColor_monotone_witness :
  (forall x y,
      JsNumber.le x y = true ->
      exists sx sy,
        severity (getMetricColor "speed_index" x) = Some sx /\
        severity (getMetricColor "speed_index" y) = Some sy /\ (sx <= sy)%nat) /\
  getMetricColor "speed_index" Num.NaN = red /\
  (forall r, speed_index r = None -> tile_color f_speed_index r = green).
Proof.
  apply (getMetricColor_monotone f_speed_index). discriminate.
Defined.

(** *** The sort controls *)

Lemma split_on_clean sep s :
  Str.forallb (fun c => negb (Ascii.eqb c sep)) s = true -> split_on sep s = [s].
Proof.
  induction s as [|c s IH]; cbn [Str.forallb split_on]; intros H; [reflexivity|].
  apply andb_true_iff in H. destruct H as [Hc Hs]. apply negb_true_iff in Hc.
  now rewrite Hc, (IH Hs).
Qed.

Lemma split_on_app sep a b :
  Str.forallb (fun c => negb (Ascii.eqb c sep)) a = true ->
  split_on sep (a ++ String sep b) = a :: split_on sep b.
Proof.
  induction a as [|c a IH]; cbn [Str.forallb split_on String.append]; intros H.
  - now rewrite Ascii.eqb_refl.
  - apply andb_true_iff in H. destruct H as [Hc Ha]. apply negb_true_iff in Hc.
    now rewrite Hc, (IH Ha).
Qed.

(** X14.  The sort menu reads back what it wrote: an option value made of a
    field and a direction without hyphen is taken apart into that field and
    that direction. *)
Theorem selected_sort_option_value :
  forall field direction,
    no_hyphen field = true -> no_hyphen direction = true ->
    selected_sort (option_value field direction) = (Some field, Some direction).
Proof.
  intros field direction Hf Hd. unfold selected_sort, option_value.
  change ("-" ++ direction)%string with (String "-" direction).
  rewrite (split_on_app "-" field direction Hf), (split_on_clean "-" direction Hd).
  reflexivity.
Qed.

Lemma selected_sort_option_value_witness :
  selected_sort (option_value (field_name f_first_content_paint) (direction_name asc))
  = (Some "first_content_paint", Some "asc").
Proof.
  apply (selected_sort_option_value "first_content_paint" "asc"); reflexivity.
Defined.

(** X15.  A click on a column header always selects that column; on a column
    that was not selected it starts with the descending order, and a second
    click on the same header inverts the order, so that two clicks on the
    selected column change nothing. *)
Theorem handleSort_twice :
  forall field sortField sortDirection,
    fst (handleSort field (sortField, sortDirection)) = field /\
    (sortField = field ->
     handleSort field (handleSort field (sortField, sortDirection))
     = (sortField, sortDirection)) /\
    (sortField <> field ->
     handleSort field (sortField, sortDirection) = (field, desc) /\
     handleSort field (handleSort field (sortField, sortDirection)) = (field, asc)).
Proof.
  intros field sortField sortDirection.
  destruct field, sortField, sortDirection; cbn;
    (split; [reflexivity|split; [intros H; try discriminate; reflexivity|
                                 intros H; try contradiction; split; reflexivity]]).
Qed.

(** *** The metrics of the chart *)

Lemma existsb_eqb_In metric prev :
  List.existsb (String.eqb metric) prev = true <-> In metric prev.
Proof.
  rewrite List.existsb_exists. split.
  - intros (x & Hx & E). apply String.eqb_eq in E. now subst.
  - intros H. exists metric. split; [exact H|apply String.eqb_refl].
Qed.

Lemma filter_others metric prev :
  ~ In metric prev ->
  List.filter (fun m => negb (String.eqb m metric)) prev = prev.
Proof.
  induction prev as [|x prev IH]; simpl; intros H; [reflexivity|].
  destruct (String.eqb_spec x metric) as [->|_]; simpl.
  - exfalso. apply H. now left.
  - rewrite IH; [reflexivity|]. intros Hin. apply H. now right.
Qed.

(** X16.  Toggling a metric of the chart flips whether it is selected and
    leaves every other metric as it was; it keeps a selection free of
    repetitions so, and toggling a metric that was not selected twice gives
    the selection back. *)
Theorem toggleMetric_flips :
  forall metric prev,
    (In metric (toggleMetric metric prev) <-> ~ In metric prev) /\
    (forall m, m <> metric -> (In m (toggleMetric metric prev) <-> In m prev)) /\
    (NoDup prev -> NoDup (toggleMetric metric prev)) /\
    (~ In metric prev -> toggleMetric metric (toggleMetric metric prev) = prev).
Proof.
  intros metric prev. unfold toggleMetric at 1 2 3.
  destruct (List.existsb (String.eqb metric) prev) eqn:E.
  - apply existsb_eqb_In in E. split; [|split; [|split]].
    + rewrite List.filter_In. split.
      * intros [_ H]. rewrite String.eqb_refl in H. discriminate.
      * intros H. contradiction.
    + intros m Hm. rewrite List.filter_In. split; [now intros [H _]|].
      intros H. split; [exact H|]. apply negb_true_iff. now apply String.eqb_neq.
    + intros H. now apply List.NoDup_filter.
    + intros H. contradiction.
  - assert (Hn : ~ In metric prev).
    { intros H. apply existsb_eqb_In in H. rewrite H in E. discriminate. }
    split; [|split; [|split]].
    + rewrite List.in_app_iff. split; [intros _; exact Hn|intros _; right; now left].
    + intros m Hm. rewrite List.in_app_iff. split; [|now left].
      intros [H|[H|[]]]; [exact H|]. now destruct Hm.
    + intros H. apply (Permutation_NoDup (l := metric :: prev)).
      * apply Permutation_cons_append.
      * now constructor.
    + intros _. unfold toggleMetric. rewrite E. cbv iota.
      assert (E' : List.existsb (String.eqb metric) (prev ++ [metric]) = true).
      { apply existsb_eqb_In. apply List.in_app_iff. right. now left. }
      rewrite E', List.filter_app, (filter_others metric prev Hn). simpl.
      rewrite String.eqb_refl. simpl. apply List.app_nil_r.
Qed.

(** *** The labels of the side navigation *)

(** X17.  The label of a domain drops one leading "www." and nothing else, so
    the domains "www." ++ d and d, which the grouping keeps apart, carry the
    same label. *)
Theorem formatDomain_label :
  (forall d, formatDomain ("www." ++ d) = d) /\
  (forall d, Str.strip_prefix "www." d = None ->
             formatDomain d = d /\
             formatDomain ("www." ++ d) = formatDomain d /\
             ("www." ++ d)%string <> d).
Proof.
  split; [intros d; reflexivity|].
  intros d H. unfold formatDomain at 1 3. rewrite H.
  split; [reflexivity|]. split; [reflexivity|].
  intros E. rewrite <- E in H. discriminate.
Qed.

Section Labels.

Variable Date_parse : string -> time.
Variable toLocaleDateString : time -> string.

Lemma toString_int_small n :
  0 <= n < 24 -> JsNumber.toString_int n = Str.digits_of n.
Proof.
  intros H. unfold JsNumber.toString_int.
  assert (E1 : (n <? 0) = false) by (apply Z.ltb_ge; lia).
  assert (E2 : (Num.pow10 21 <=? Z.abs n) = false).
  { apply Z.leb_gt. change (Num.pow10 21) with 1000000000000000000000. lia. }
  rewrite E1, E2, Z.abs_eq by lia. reflexivity.
Qed.

(** X18.  The age label of a group.  A time less than an hour back, or in
    the future, reads "Just now"; from one hour on the label counts the full
    hours, 1 to 23; from a day on the full days, 1 to 6; from a week on, and
    for a time that does not parse, it is the locale form of the date. *)
Theorem getRelativeTime_cases :
  forall now dateString,
    let label := getRelativeTime Date_parse toLocaleDateString now dateString in
    match Date_parse dateString with
    | None => label = toLocaleDateString None
    | Some t =>
        let age := now - t in
        (age < 3600000 -> label = "Just now") /\
        (3600000 <= age < 86400000 ->
         exists h, 1 <= h <= 23 /\ h * 3600000 <= age < (h + 1) * 3600000 /\
                   label = (Str.digits_of h ++ "h ago")%string) /\
        (86400000 <= age < 604800000 ->
         exists d, 1 <= d <= 6 /\ d * 86400000 <= age < (d + 1) * 86400000 /\
                   label = (Str.digits_of d ++ "d ago")%string) /\
        (604800000 <= age -> label = toLocaleDateString (Some t))
    end.
Proof.
  intros now dateString label. subst label. unfold getRelativeTime.
  destruct (Date_parse dateString) as [t|]; [|reflexivity].
  cbv zeta. change (1000 * 60 * 60) with 3600000.
  set (age := now - t). set (h := age / 3600000).
  assert (Hh : h * 3600000 <= age < (h + 1) * 3600000).
  { subst h. pose proof (Z.div_mod age 3600000 ltac:(lia)).
    pose proof (Z.mod_pos_bound age 3600000 ltac:(lia)). lia. }
  set (d := h / 24).
  assert (Hd : d * 24 <= h < (d + 1) * 24).
  { subst d. pose proof (Z.div_mod h 24 ltac:(lia)).
    pose proof (Z.mod_pos_bound h 24 ltac:(lia)). lia. }
  split; [|split; [|split]].
  - intros H. assert (E : (h <? 1) = true) by (apply Z.ltb_lt; lia). now rewrite E.
  - intros H. assert (E1 : (h <? 1) = false) by (apply Z.ltb_ge; lia).
    assert (E2 : (h <? 24) = true) by (apply Z.ltb_lt; lia).
    rewrite E1, E2. exists h. split; [lia|]. split; [lia|].
    rewrite toString_int_small; [reflexivity|lia].
  - intros H. assert (E1 : (h <? 1) = false) by (apply Z.ltb_ge; lia).
    assert (E2 : (h <? 24) = false) by (apply Z.ltb_ge; lia).
    assert (E3 : (d <? 7) = true) by (apply Z.ltb_lt; lia).
    rewrite E1, E2, E3. exists d. split; [lia|]. split; [lia|].
    rewrite toString_int_small; [reflexivity|lia].
  - intros H. assert (E1 : (h <? 1) = false) by (apply Z.ltb_ge; lia).
    assert (E2 : (h <? 24) = false) by (apply Z.ltb_ge; lia).
    assert (E3 : (d <? 7) = false) by (apply Z.ltb_ge; lia).
    now rewrite E1, E2, E3.
Qed.

End Labels.

End ComponentFacts.

(** ** The export, and more on extraction and parsing *)

Module ExportFacts.

Import Route StrFacts RouteFacts.

Section CsvExport.

Variable Date_parse : string -> time.
Variable Date_toISOString : Z -> string.

Lemma csvRow_cases r :
  (exportable Date_parse Date_toISOString r = true /\
   exists row, csvRow Date_parse Date_toISOString r = Some row /\
               row_of Date_parse Date_toISOString r row) \/
  (exportable Date_parse Date_toISOString r = false /\
   csvRow Date_parse Date_toISOString r = None).
Proof.
  unfold exportable, csvRow, row_of.
  destruct (created_cell Date_parse Date_toISOString (created_at r)) as [created|].
  - left. split; [reflexivity|]. eexists. split; [reflexivity|].
    exists created. repeat split.
  - right. split; reflexivity.
Qed.

Lemma csvRows_cases results :
  (exists rows,
      csvRows Date_parse Date_toISOString results = Some rows /\
      Forall2 (row_of Date_parse Date_toISOString) results rows /\
      Forall (fun r => exportable Date_parse Date_toISOString r = true) results) \/
  (csvRows Date_parse Date_toISOString results = None /\
   exists r, In r results /\ exportable Date_parse Date_toISOString r = false).
Proof.
  induction results as [|r results IH].
  - left. exists []. repeat split; constructor.
  - cbn [csvRows].
    destruct (csvRow_cases r) as [(He & row & Er & Hrow)|(He & Er)]; rewrite Er.
    + destruct IH as [(rows & Es & Hrows & Hall)|(Es & r' & Hin & He')]; rewrite Es.
      * left. exists (row :: rows). repeat split; constructor; assumption.
      * right. split; [reflexivity|]. exists r'. split; [now right|exact He'].
    + right. split; [reflexivity|]. exists r. split; [now left|exact He].
Qed.

(** X19.  The three outcomes of the export.  Nothing is downloaded for an
    empty list (the alert) or when the creation time of some record is
    present and does not parse (the RangeError of toISOString, for the whole
    export); otherwise the file holds the header and one row of nine cells
    for each record, in the order shown. *)
Theorem exportToCSV_outcome :
  forall dateStr results selectedWebsite strategyFilter,
    match exportToCSV Date_parse Date_toISOString dateStr results selectedWebsite
                      strategyFilter with
    | NothingToExport => results = []
    | RangeError => exists r, In r results /\ exportable Date_parse Date_toISOString r = false
    | Download filename content =>
        results <> [] /\
        Forall (fun r => exportable Date_parse Date_toISOString r = true) results /\
        filename = export_filename dateStr selectedWebsite strategyFilter /\
        exists rows,
          content = csvContent (headers :: rows) /\
          Forall2 (row_of Date_parse Date_toISOString) results rows
    end.
Proof.
  intros dateStr results sel st. unfold exportToCSV.
  destruct results as [|r0 rest]; [reflexivity|].
  destruct (csvRows_cases (r0 :: rest)) as [(rows & Es & Hrows & Hall)|(Es & r & Hin & He)];
    rewrite Es.
  - split; [discriminate|]. split; [exact Hall|]. split; [reflexivity|].
    now exists rows.
  - now exists r.
Qed.

End CsvExport.

(** *** The file name *)

Lemma sanitize_app a b : sanitize (a ++ b) = (sanitize a ++ sanitize b)%string.
Proof.
  unfold sanitize. induction a as [|c a IH]; simpl; [reflexivity|]. now rewrite IH.
Qed.

(** X20.  The website part of the export's file name holds letters, digits
    and underscores only and is as long as the domain; domains that differ
    in other characters only, as a.b and a-b, give the same file name. *)
Theorem export_filename_safe :
  (forall w, Str.forallb filename_char (sanitize w) = true /\
             String.length (sanitize w) = String.length w) /\
  (forall w, Str.forallb is_alphanumeric w = true -> sanitize w = w) /\
  (forall dateStr a b strategyFilter,
      export_filename dateStr (Some (a ++ "." ++ b)%string) strategyFilter
      = export_filename dateStr (Some (a ++ "-" ++ b)%string) strategyFilter).
Proof.
  split; [|split].
  - intros w. unfold sanitize. induction w as [|c w [IH1 IH2]]; [split; reflexivity|].
    cbn [Str.map Str.forallb String.length]. rewrite IH1, IH2. split; [|reflexivity].
    unfold filename_char. destruct (is_alphanumeric c) eqn:E; [now rewrite E|reflexivity].
  - intros w. unfold sanitize. induction w as [|c w IH]; [reflexivity|].
    cbn [Str.map Str.forallb]. intros H. apply andb_true_iff in H. destruct H as [Hc Hw].
    now rewrite Hc, (IH Hw).
  - intros dateStr a b st. unfold export_filename.
    assert (E : forall (x : string) (y : ascii), Str.is_empty (x ++ String y b) = false)
      by (intros [|c x] y; reflexivity).
    change ("." ++ b)%string with (String "." b).
    change ("-" ++ b)%string with (String "-" b).
    rewrite !E, !sanitize_app. reflexivity.
Qed.

(** *** A missing audit *)

(** X21.  A Lighthouse metric whose display value is missing from the
    PageSpeed document, or present and falsy, is stored as the number 0. *)
Theorem missing_audit_stored_as_zero :
  forall data res targetUrl strategy rec m,
    data <> JNull ->
    outcome (extract data) = inr res ->
    outcome (normalise res targetUrl strategy) = inr rec ->
    MoreSamples.is_lighthouse m = true ->
    (absent data (tracked_path m) \/
     exists v, resolves data (tracked_path m) v /\ truthy v = false) ->
    measurement m rec = Some Num.zero.
Proof.
  intros data res u s rec m Hd He Hn Hm Hv.
  destruct (extract_value data Hd) as (res' & Ee & _ & _ & Hex).
  rewrite Ee in He. injection He as <-.
  assert (Hna : extracted m res' = JStr "N/A").
  { rewrite Hex. destruct Hv as [Ha|(v & Hr & Hf)].
    - now rewrite (absent_fold _ _ Ha).
    - rewrite (resolves_fold _ _ _ Hr). simpl. now rewrite Hf. }
  destruct (measurement m rec) as [x|] eqn:Emx; [|destruct m; discriminate].
  pose proof (normalise_measurement _ _ _ _ Hn m x Emx) as Hx.
  rewrite Hna in Hx. injection Hx as <-. reflexivity.
Qed.

Lemma missing_audit_stored_as_zero_witness :
  measurement lh_si Samples.example_record = Some Num.zero.
Proof.
  apply (missing_audit_stored_as_zero Samples.example_document Samples.example_result
           (JStr "https://example.com/") (JStr "desktop") Samples.example_record lh_si).
  - discriminate.
  - reflexivity.
  - reflexivity.
  - reflexivity.
  - right. exists (JStr ""). split; [|reflexivity].
    repeat (econstructor; try reflexivity).
Defined.

Lemma member_get data k : data <> JNull -> member data k = inr (get data k).
Proof. destruct data; [contradiction|reflexivity..]. Qed.

(** X23.  Extraction reads three members of the PageSpeed document and
    nothing else: two documents that agree on "id", "loadingExperience" and
    "lighthouseResult" give the same result. *)
Theorem extract_reads_three_members :
  forall data data',
    data <> JNull -> data' <> JNull ->
    get data "id" = get data' "id" ->
    get data "loadingExperience" = get data' "loadingExperience" ->
    get data "lighthouseResult" = get data' "lighthouseResult" ->
    extract data = extract data'.
Proof.
  intros data data' Hd Hd' H1 H2 H3. unfold extract, chain.
  rewrite !(member_get data _ Hd), !(member_get data' _ Hd'), H1, H2, H3.
  reflexivity.
Qed.

Lemma extract_reads_three_members_witness :
  extract Samples.example_document = extract MoreSamples.verbose_document.
Proof.
  apply (extract_reads_three_members Samples.example_document MoreSamples.verbose_document);
    (discriminate || reflexivity).
Defined.

(** *** The ID column *)

(** X24.  The ID cell of an exported row reads back as the identifier, for
    every positive identifier below 10^21. *)
Theorem id_cell_reads_back :
  forall n,
    0 < n < Num.pow10 21 ->
    Num.parseFloat (id_cell (Some n)) = Num.Finite (Num.Dec n 0).
Proof.
  intros n Hn. unfold id_cell, JsNumber.toString_int.
  assert (E0 : (n =? 0) = false) by (apply Z.eqb_neq; lia).
  assert (E1 : (n <? 0) = false) by (apply Z.ltb_ge; lia).
  assert (E2 : (Num.pow10 21 <=? n) = false) by (apply Z.leb_gt; apply Hn).
  rewrite (Z.abs_eq n) by lia. rewrite E0, E1, E2.
  change ("" ++ Str.digits_of n)%string with (Str.digits_of n).
  destruct (FixedFacts.digits_of_spec n ltac:(lia)) as (Hdig & Hne & Hval).
  rewrite (FixedFacts.parseFloat_integer _ Hdig Hne).
  unfold Str.digits_value. rewrite Hval.
  change (Num.pow10 0) with 1. now rewrite Z.mul_0_l, Z.add_0_l, Z.mul_1_r.
Qed.

Lemma id_cell_reads_back_witness :
  Num.parseFloat (id_cell (Some 42)) = Num.Finite (Num.Dec 42 0).
Proof.
  apply (id_cell_reads_back 42). split; [lia|reflexivity].
Defined.

(** *** What [parseMetricValue] reads *)






End ExportFacts.
